(** * WorkdayRaaSAPI: the collection CRUD engine of [app.py]

    A shallow embedding of the Flask application [app.py]: the JSON
    documents it loads and saves, the envelope codec ([extract_entries],
    [rewrap]), the record normalizer ([normalize_for_saviynt]), the key
    resolution of the id routes, the bearer-token gate ([require_token]) and
    the six route handlers, followed by the properties of the engine.

    Python values are modelled as the code sees them after [json.load]:
    a document is a [json] value, a record is a [JDict] whose fields keep
    their insertion order, the files under [data/] are a finite map from path
    to document, and an exception that the code does not catch is a [Raise]
    result (Flask answers it with a 500 and nothing is saved). *)

From Stdlib Require Import ZArith String Ascii List Bool DecimalString Lia.
From stdpp Require Import base option gmap strings.
Import ListNotations.
Local Open Scope string_scope.
Set Warnings "-register-all".

(** ** Python values *)

(** What [json.load] produces.  An integer is a Python [int]; a float is
    identified by its [repr] (the text [str] and [json.dump] print for it),
    which is all the application ever observes of one; an object is a [dict],
    kept as the list of its items in insertion order. *)
Inductive json : Type :=
| JNull
| JBool (b : bool)
| JInt (z : Z)
| JFloat (repr : string)
| JStr (s : string)
| JList (l : list json)
| JDict (d : list (string * json)).

(** The exceptions the modelled code can raise. *)
Inductive exn : Type :=
| TypeError
| ValueError
| AttributeError
| IndexError
| FileNotFoundError.

Inductive result (A : Type) : Type :=
| Ok (a : A)
| Raise (e : exn).
Arguments Ok {A} a.
Arguments Raise {A} e.

#[global] Instance result_ret : MRet result := fun _ a => Ok a.
#[global] Instance result_bind : MBind result := fun _ _ f m =>
  match m with
  | Ok a => f a
  | Raise e => Raise e
  end.

Definition is_record (j : json) : bool :=
  match j with
  | JDict _ => true
  | _ => false
  end.

(** Truth value of a JSON value, as [not x] and [x or y] take it. *)
Definition truthy (j : json) : bool :=
  match j with
  | JNull => false
  | JBool b => b
  | JInt z => negb (Z.eqb z 0)
  | JFloat r => negb (String.eqb r "0.0" || String.eqb r "-0.0")
  | JStr s => negb (String.eqb s "")
  | JList l => negb (Nat.eqb (length l) 0)
  | JDict d => negb (Nat.eqb (length d) 0)
  end.

(** *** Dictionaries *)

(** [d[k]] when present. *)
Fixpoint dict_lookup (k : string) (d : list (string * json)) : option json :=
  match d with
  | [] => None
  | (k', v) :: d' => if String.eqb k k' then Some v else dict_lookup k d'
  end.

(** [k in d] *)
Definition dict_has (k : string) (d : list (string * json)) : bool :=
  match dict_lookup k d with
  | Some _ => true
  | None => false
  end.

(** [d.get(k)]: [None] for a missing key. *)
Definition dict_get (k : string) (d : list (string * json)) : json :=
  match dict_lookup k d with
  | Some v => v
  | None => JNull
  end.

(** [d[k] = v]: an existing key keeps its place, a new one goes last. *)
Fixpoint dict_set (k : string) (v : json) (d : list (string * json))
  : list (string * json) :=
  match d with
  | [] => [(k, v)]
  | (k', v') :: d' =>
      if String.eqb k k' then (k', v) :: d' else (k', v') :: dict_set k v d'
  end.

(** [d.update(p)] for a dict [p]: its items are assigned in order. *)
Definition dict_merge (d p : list (string * json)) : list (string * json) :=
  fold_left (fun acc kv => dict_set (fst kv) (snd kv) acc) p d.

(** *** Operations of the records, on any JSON value *)

(** [s in t] on strings: [s] occurs in [t]. *)
Fixpoint str_contains (s t : string) : bool :=
  if String.prefix s t then true
  else match t with
       | EmptyString => false
       | String _ t' => str_contains s t'
       end.

(** [k in rec]: key membership on a dict, element membership on a list,
    substring on a string, [TypeError] on anything else. *)
Definition py_in (k : string) (rec : json) : result bool :=
  match rec with
  | JDict d => Ok (dict_has k d)
  | JList l =>
      Ok (existsb (fun x => match x with
                            | JStr s => String.eqb s k
                            | _ => false
                            end) l)
  | JStr s => Ok (str_contains k s)
  | JNull | JBool _ | JInt _ | JFloat _ => Raise TypeError
  end.

(** [rec.get(k)]: only a dict has the method. *)
Definition py_get (rec : json) (k : string) : result json :=
  match rec with
  | JDict d => Ok (dict_get k d)
  | _ => Raise AttributeError
  end.

(** [rec[k] = v] with a string key: only a dict accepts it. *)
Definition py_setitem (rec : json) (k : string) (v : json) : result json :=
  match rec with
  | JDict d => Ok (JDict (dict_set k v d))
  | _ => Raise TypeError
  end.

(** *** A dict in memory, with keys of any hashable kind

    [dict.update] on a list of pairs takes any hashable key: a string,
    [None], a bool or a number.  A record that holds such a key lasts until
    the end of the request; what remains of it is what [json.dump] writes
    (with the key as text) and [json.load] reads back. *)

Definition digit_of (c : ascii) : option Z :=
  let n := nat_of_ascii c in
  if Nat.leb 48 n && Nat.leb n 57 then Some (Z.of_nat (n - 48)) else None.

(** The digits at the head of [s], appended to the number [acc]; how many
    were read; the rest of [s]. *)
Fixpoint read_digits (s : string) (acc : Z) (n : nat) : Z * nat * string :=
  match s with
  | EmptyString => (acc, n, s)
  | String c s' =>
      match digit_of c with
      | Some d => read_digits s' (10 * acc + d)%Z (S n)
      | None => (acc, n, s)
      end
  end.

(** The [repr] of a finite float, read as sign, digits [m] and power of ten
    [e]: the decimal number [m * 10 ^ e]. *)
Definition parse_decimal (r : string) : option (bool * Z * Z) :=
  let '(negative, s) := match r with
                        | String "-" s' => (true, s')
                        | _ => (false, r)
                        end in
  let '(whole, n1, s1) := read_digits s 0 0 in
  if Nat.eqb n1 0 then None
  else
    let '(m, fraction, s2) := match s1 with
                              | String "." s' => read_digits s' whole 0
                              | _ => (whole, 0%nat, s1)
                              end in
    match s2 with
    | EmptyString => Some (negative, m, (- Z.of_nat fraction)%Z)
    | String "e" s3 =>
        let '(down, s4) := match s3 with
                           | String "-" t => (true, t)
                           | String "+" t => (false, t)
                           | _ => (false, s3)
                           end in
        let '(e, n3, s5) := read_digits s4 0 0 in
        if Nat.eqb n3 0 || negb (String.eqb s5 "") then None
        else Some (negative, m,
                   ((if down then - e else e) - Z.of_nat fraction)%Z)
    | _ => None
    end.

(** The float nearest to the natural number [n] (ties to even), which is a
    natural number too: [n] itself below [2 ^ 53]. *)
Definition nearest_double (n : Z) : Z :=
  if Z.ltb n (2 ^ 53)%Z then n
  else
    let s := (Z.log2 n - 52)%Z in
    let q := (n / 2 ^ s)%Z in
    let rest := (n mod 2 ^ s)%Z in
    let half := (2 ^ (s - 1))%Z in
    let q' := if Z.ltb half rest || (Z.eqb rest half && Z.odd q)
              then (q + 1)%Z else q in
    (q' * 2 ^ s)%Z.

(** The integer a float equals, when it equals one. *)
Definition float_whole (r : string) : option Z :=
  match parse_decimal r with
  | Some (negative, m, e) =>
      let sign := if negative then (-1)%Z else 1%Z in
      if Z.leb 0 e then Some (sign * nearest_double (m * 10 ^ e))%Z
      else if Z.eqb (m mod 10 ^ (- e))%Z 0
      then Some (sign * nearest_double (m / 10 ^ (- e)))%Z
      else None
  | None => None
  end.

(** The number a key is: an integer (a bool is 0 or 1, a float may be one),
    or another float, known by its [repr].  [nan] is no number: it equals
    nothing. *)
Inductive number : Type :=
| Whole (z : Z)
| Broken (r : string).

Definition number_of (k : json) : option number :=
  match k with
  | JBool b => Some (Whole (if b then 1 else 0))
  | JInt z => Some (Whole z)
  | JFloat r =>
      if String.eqb r "nan" then None
      else match float_whole r with
           | Some z => Some (Whole z)
           | None => Some (Broken r)
           end
  | _ => None
  end.

(** [a == b] on keys: strings by their text, [None] only with itself, bools
    and numbers by their value ([True == 1 == 1.0]). *)
Definition key_eq (a b : json) : bool :=
  match a, b with
  | JStr s, JStr t => String.eqb s t
  | JNull, JNull => true
  | _, _ =>
      match number_of a, number_of b with
      | Some (Whole x), Some (Whole y) => Z.eqb x y
      | Some (Broken r), Some (Broken t) => String.eqb r t
      | _, _ => false
      end
  end.

(** [m[k] = v] on a dict in memory: an equal key keeps its place and stays
    the key, a new one goes last. *)
Fixpoint mem_set (k v : json) (m : list (json * json)) : list (json * json) :=
  match m with
  | [] => [(k, v)]
  | (k', v') :: m' =>
      if key_eq k k' then (k', v) :: m' else (k', v') :: mem_set k v m'
  end.

(** A record, as a dict in memory. *)
Definition in_memory (d : list (string * json)) : list (json * json) :=
  map (fun kv => (JStr (fst kv), snd kv)) d.

(** The text [json.dump] writes for a key. *)
Definition key_text (k : json) : string :=
  match k with
  | JStr s => s
  | JNull => "null"
  | JBool true => "true"
  | JBool false => "false"
  | JInt z => NilZero.string_of_int (Z.to_int z)
  | JFloat r =>
      if String.eqb r "nan" then "NaN"
      else if String.eqb r "inf" then "Infinity"
      else if String.eqb r "-inf" then "-Infinity"
      else r
  | JList _ | JDict _ => ""
  end.

(** The record [json.load] reads back from what [json.dump] writes for the
    dict [m]: the items in their order, each key as text; an item whose text
    was written before (a string and a key that is none can come out alike)
    gives its value to the earlier place.  [texts] are the texts written so
    far for keys that are no strings. *)
Fixpoint read_back (m : list (json * json)) (texts : list string)
  (acc : list (string * json)) : list (string * json) :=
  match m with
  | [] => acc
  | (JStr s, v) :: m' =>
      read_back m' texts
        (if existsb (String.eqb s) texts then dict_set s v acc
         else acc ++ [(s, v)])%list
  | (k, v) :: m' =>
      read_back m' (key_text k :: texts) (dict_set (key_text k) v acc)
  end.

(** One element of the sequence given to [dict.update]: it must itself be a
    sequence of exactly two items, the key and the value.  A list gives its
    elements, a string its characters, a dict its keys.  A key that is a
    list or a dict cannot be hashed. *)
Definition update_pair (m : list (json * json)) (elem : json)
  : result (list (json * json)) :=
  match elem with
  | JList [k; v] =>
      match k with
      | JList _ | JDict _ => Raise TypeError
      | JNull | JBool _ | JInt _ | JFloat _ | JStr _ => Ok (mem_set k v m)
      end
  | JList _ => Raise ValueError
  | JStr (String c1 (String c2 EmptyString)) =>
      Ok (mem_set (JStr (String c1 EmptyString))
            (JStr (String c2 EmptyString)) m)
  | JStr _ => Raise ValueError
  | JDict [(k1, _); (k2, _)] => Ok (mem_set (JStr k1) (JStr k2) m)
  | JDict _ => Raise ValueError
  | JNull | JBool _ | JInt _ | JFloat _ => Raise TypeError
  end.

Fixpoint update_pairs (m : list (json * json)) (elems : list json)
  : result (list (json * json)) :=
  match elems with
  | [] => Ok m
  | e :: es => m' ← update_pair m e; update_pairs m' es
  end.

(** [rec.update(payload)]: a dict payload is merged; a list is read as a
    sequence of key/value pairs; the characters of a string are sequences of
    length one; a scalar is not iterable.  After an update by pairs the
    record is given as it is read back from the file the route saves. *)
Definition py_update (rec payload : json) : result json :=
  match rec with
  | JDict d =>
      match payload with
      | JDict p => Ok (JDict (dict_merge d p))
      | JList l =>
          m ← update_pairs (in_memory d) l;
          Ok (JDict (read_back m [] []))
      | JStr EmptyString => Ok (JDict d)
      | JStr _ => Raise ValueError
      | JNull | JBool _ | JInt _ | JFloat _ => Raise TypeError
      end
  | _ => Raise AttributeError
  end.

(** [x in (None, s)] *)
Definition none_or_str (s : string) (x : json) : bool :=
  match x with
  | JNull => true
  | JStr t => String.eqb t s
  | _ => false
  end.

(** *** Strings *)

(** The characters [str.strip()] removes, among the 256 a header value can
    hold (WSGI hands header values over decoded as latin-1). *)
Definition is_space (c : ascii) : bool :=
  let n := nat_of_ascii c in
  (Nat.leb 9 n && Nat.leb n 13) || (Nat.leb 28 n && Nat.leb n 32)
  || Nat.eqb n 133 || Nat.eqb n 160.

Fixpoint lstrip (s : string) : string :=
  match s with
  | EmptyString => EmptyString
  | String c s' => if is_space c then lstrip s' else s
  end.

Fixpoint rstrip (s : string) : string :=
  match s with
  | EmptyString => EmptyString
  | String c s' =>
      match rstrip s' with
      | EmptyString => if is_space c then EmptyString else String c EmptyString
      | r => String c r
      end
  end.

(** [s.strip()] *)
Definition strip (s : string) : string := rstrip (lstrip s).

(** [s.split(" ", 1)]: the parts before and after the first space, or [s]
    alone when it has none. *)
Fixpoint split_space_once (s : string) : list string :=
  match s with
  | EmptyString => [EmptyString]
  | String c s' =>
      if Ascii.eqb c " "%char then [EmptyString; s']
      else match split_space_once s' with
           | h :: t => String c h :: t
           | [] => [String c EmptyString]
           end
  end.

(** ** The application *)

(** The CONFIG block of the module. *)
Record config : Type := {
  ACCESS_TOKEN : string;
  CLIENT_ID : string;
  CLIENT_SECRET : string;
  AUTO_ENSURE_ISACTIVE : bool;
  AUTO_CLEAN_TERMINATION_DATE : bool
}.

(** The values the source sets. *)
Definition app_config : config := {|
  ACCESS_TOKEN := "mysecrettoken123";
  CLIENT_ID := "testclient";
  CLIENT_SECRET := "testsecret";
  AUTO_ENSURE_ISACTIVE := true;
  AUTO_CLEAN_TERMINATION_DATE := true
|}.

(** What a view reads of the Flask [request]: the method, the
    [Authorization] header when there is one, the [access_token] query
    argument when there is one, and the outcome of
    [get_json(force=True, silent=True)], which is [None] for an absent or
    malformed body. *)
Record request : Type := {
  method : string;
  authorization : option string;
  arg_access_token : option string;
  get_json : option json
}.

(** A view returns [jsonify(body), status]. *)
Record response : Type := {
  body : json;
  status : Z
}.

Definition jsonify (j : json) (code : Z) : response :=
  {| body := j; status := code |}.

(** The files, by path. *)
Abbreviation store := (gmap string json).

(** A view runs on a request and the files; it answers and leaves the files
    as it saved them, or raises. *)
Definition view : Type := request -> store -> result (response * store).

(** *** File helpers *)

Definition load_data (filename : string) (st : store) : result json :=
  match st !! ("data/" ++ filename) with
  | Some data => Ok data
  | None => Raise FileNotFoundError
  end.

Definition save_data (filename : string) (data : json) (st : store) : store :=
  <["data/" ++ filename := data]> st.

Definition extract_entries (obj : json) : list json * option string :=
  match obj with
  | JDict d =>
      match dict_lookup "Report_Entry" d with
      | Some (JList l) => (l, Some "Report_Entry")
      | _ => ([], None)
      end
  | JList l => (l, None)
  | _ => ([], None)
  end.

Definition rewrap (entries : list json) (wrapper_key : option string) : json :=
  match wrapper_key with
  | Some k =>
      if String.eqb k "" then JList entries else JDict [(k, JList entries)]
  | None => JList entries
  end.

(** [request.get_json(force=True, silent=True) or {}] *)
Definition json_or_empty (req : request) : json :=
  match get_json req with
  | Some j => if truthy j then j else JDict []
  | None => JDict []
  end.

Section App.

(** The configuration in force. *)
Variable cfg : config.

(** [str(x)] of a list or of a dict is Python's [repr] of it, which is left
    open: every result below holds whatever text it is. *)
Variable container_repr : json -> string.

(** [str(x)] *)
Definition py_str (x : json) : string :=
  match x with
  | JNull => "None"
  | JBool true => "True"
  | JBool false => "False"
  | JInt z => NilZero.string_of_int (Z.to_int z)
  | JFloat r => r
  | JStr s => s
  | JList _ | JDict _ => container_repr x
  end.

(** *** Record normalizer *)

(** The body of the loop of [normalize_for_saviynt]. *)
Definition normalize_record (rec : json) : result json :=
  rec1 ← (if AUTO_CLEAN_TERMINATION_DATE cfg then
            td ← py_get rec "Termination_Date";
            if none_or_str "NA" td
            then py_setitem rec "Termination_Date" (JStr "")
            else Ok rec
          else Ok rec);
  if AUTO_ENSURE_ISACTIVE cfg then
    present ← py_in "IsActive" rec1;
    missing ← (if negb present then Ok true
               else v ← py_get rec1 "IsActive"; Ok (none_or_str "" v));
    if missing : bool then py_setitem rec1 "IsActive" (JStr "true") else Ok rec1
  else Ok rec1.

(** The function changes the records in place and returns nothing; the
    model returns the records as the loop leaves them. *)
Fixpoint normalize_for_saviynt (entries : list json) : result (list json) :=
  match entries with
  | [] => Ok []
  | rec :: rest =>
      rec' ← normalize_record rec;
      rest' ← normalize_for_saviynt rest;
      Ok (rec' :: rest')
  end.

(** *** Key resolution *)

(** [any(k in rec for rec in entries)] *)
Fixpoint any_has (k : string) (entries : list json) : result bool :=
  match entries with
  | [] => Ok false
  | rec :: rest =>
      b ← py_in k rec;
      if b : bool then Ok true else any_has k rest
  end.

(** [next((k for k in key_candidates if any(k in rec for rec in entries)),
    default)] *)
Fixpoint resolve_key (key_candidates : list string) (entries : list json)
  (default : string) : result string :=
  match key_candidates with
  | [] => Ok default
  | k :: ks =>
      b ← any_has k entries;
      if b : bool then Ok k else resolve_key ks entries default
  end.

Definition employee_key_name : string := "Worker_ID".

Definition contractor_key_candidates : list string :=
  ["employeeID"; "Worker_ID"; "contractorID"].

Definition contractor_key_name (entries : list json) : result string :=
  resolve_key contractor_key_candidates entries "employeeID".

Definition conversion_key_candidates : list string :=
  ["contractorID"; "Worker_ID"; "employeeID"].

Definition conversion_key_name (entries : list json) : result string :=
  resolve_key conversion_key_candidates entries "contractorID".

(** *** The loops of the id routes *)

(** [str(rec.get(key_name)) == str(emp_id)]; the path argument is a string
    already. *)
Definition key_matches (key_name emp_id : string) (rec : json) : result bool :=
  v ← py_get rec key_name;
  Ok (String.eqb (py_str v) emp_id).

(** The PUT loop: the first record that matches is updated in place and the
    loop stops.  [None] when the loop ends without a match, otherwise the
    records after the update and the record updated. *)
Fixpoint update_first (key_name emp_id : string) (payload : json)
  (entries : list json) : result (option (list json * json)) :=
  match entries with
  | [] => Ok None
  | rec :: rest =>
      m ← key_matches key_name emp_id rec;
      if m : bool then
        rec' ← py_update rec payload;
        Ok (Some (rec' :: rest, rec'))
      else
        r ← update_first key_name emp_id payload rest;
        Ok (match r with
            | Some (rest', rec') => Some (rec :: rest', rec')
            | None => None
            end)
  end.

(** [[rec for rec in entries if str(rec.get(key_name)) != str(emp_id)]] *)
Fixpoint remove_matching (key_name emp_id : string) (entries : list json)
  : result (list json) :=
  match entries with
  | [] => Ok []
  | rec :: rest =>
      m ← key_matches key_name emp_id rec;
      rest' ← remove_matching key_name emp_id rest;
      Ok (if m : bool then rest' else rec :: rest')
  end.

Definition message (text : string) : json := JDict [("message", JStr text)].

Definition message_data (text : string) (data : json) : json :=
  JDict [("message", JStr text); ("data", data)].

Definition error (text : string) : json := JDict [("error", JStr text)].

(** *** Access gate *)

(** The token of an [Authorization: Bearer <token>] header. *)
Definition header_token (req : request) : result (option string) :=
  let auth_header := default "" (authorization req) in
  if String.prefix "Bearer " auth_header then
    match nth_error (split_space_once auth_header) 1 with
    | Some t => Ok (Some (strip t))
    | None => Raise IndexError
    end
  else Ok None.

(** [not token] *)
Definition no_token (token : option string) : bool :=
  match token with
  | Some t => String.eqb t ""
  | None => true
  end.

(** The token the decorator goes on with: the header's, or else the
    [access_token] query argument. *)
Definition request_token (req : request) : result (option string) :=
  token ← header_token req;
  Ok (if no_token token then arg_access_token req else token).

Definition require_token (f : view) : view := fun req st =>
  token ← request_token req;
  if no_token token then Ok (jsonify (error "Missing access token") 401, st)
  else if negb (String.eqb (default "" token) (ACCESS_TOKEN cfg))
  then Ok (jsonify (error "Invalid access token") 403, st)
  else f req st.

(** *** Employees *)

Definition employees_handler_view : view := fun req st =>
  data ← load_data "employees.json" st;
  let '(entries, wrapper_key) := extract_entries data in
  if String.eqb (method req) "GET" then
    entries' ← normalize_for_saviynt entries;
    Ok (jsonify (rewrap entries' wrapper_key) 200, st)
  else
    let new_item := json_or_empty req in
    let entries' := (entries ++ [new_item])%list in
    Ok (jsonify (message_data "Employee added" new_item) 201,
        save_data "employees.json" (rewrap entries' wrapper_key) st).

Definition employees_handler : view := require_token employees_handler_view.

Definition employee_update_delete_view (emp_id : string) : view := fun req st =>
  data ← load_data "employees.json" st;
  let '(entries, wrapper_key) := extract_entries data in
  let key_name := employee_key_name in
  if String.eqb (method req) "PUT" then
    let payload := json_or_empty req in
    r ← update_first key_name emp_id payload entries;
    match r with
    | Some (entries', _) =>
        Ok (jsonify (message_data "Employee updated" payload) 200,
            save_data "employees.json" (rewrap entries' wrapper_key) st)
    | None => Ok (jsonify (error "Not found") 404, st)
    end
  else
    new_entries ← remove_matching key_name emp_id entries;
    if negb (Nat.eqb (length new_entries) (length entries)) then
      Ok (jsonify (message "Employee deleted") 200,
          save_data "employees.json" (rewrap new_entries wrapper_key) st)
    else Ok (jsonify (error "Not found") 404, st).

Definition employee_update_delete (emp_id : string) : view :=
  require_token (employee_update_delete_view emp_id).

(** *** Contractors *)

Definition contractors_handler_view : view := fun req st =>
  data ← load_data "contractors.json" st;
  let '(entries, wrapper_key) := extract_entries data in
  if String.eqb (method req) "GET" then
    entries' ← normalize_for_saviynt entries;
    Ok (jsonify (rewrap entries' wrapper_key) 200, st)
  else
    let new_item := json_or_empty req in
    let entries' := (entries ++ [new_item])%list in
    Ok (jsonify (message_data "Contractor added" new_item) 201,
        save_data "contractors.json" (rewrap entries' wrapper_key) st).

Definition contractors_handler : view := require_token contractors_handler_view.

Definition contractor_update_delete_view (emp_id : string) : view :=
  fun req st =>
  data ← load_data "contractors.json" st;
  let '(entries, wrapper_key) := extract_entries data in
  key_name ← contractor_key_name entries;
  if String.eqb (method req) "PUT" then
    let payload := json_or_empty req in
    r ← update_first key_name emp_id payload entries;
    match r with
    | Some (entries', rec) =>
        Ok (jsonify (message_data "Contractor updated" rec) 200,
            save_data "contractors.json" (rewrap entries' wrapper_key) st)
    | None => Ok (jsonify (error "Not found") 404, st)
    end
  else
    new_entries ← remove_matching key_name emp_id entries;
    if negb (Nat.eqb (length new_entries) (length entries)) then
      Ok (jsonify (message "Contractor deleted") 200,
          save_data "contractors.json" (rewrap new_entries wrapper_key) st)
    else Ok (jsonify (error "Not found") 404, st).

Definition contractor_update_delete (emp_id : string) : view :=
  require_token (contractor_update_delete_view emp_id).

(** *** Conversion *)

Definition conversion_handler_view : view := fun req st =>
  data ← load_data "conversion.json" st;
  let '(entries, wrapper_key) := extract_entries data in
  if String.eqb (method req) "GET" then
    Ok (jsonify (rewrap entries wrapper_key) 200, st)
  else
    let new_item := json_or_empty req in
    let entries' := (entries ++ [new_item])%list in
    Ok (jsonify (message_data "Conversion added" new_item) 201,
        save_data "conversion.json" (rewrap entries' wrapper_key) st).

Definition conversion_handler : view := require_token conversion_handler_view.

Definition conversion_update_delete_view (contractor_id : string) : view :=
  fun req st =>
  data ← load_data "conversion.json" st;
  let '(entries, wrapper_key) := extract_entries data in
  key_name ← conversion_key_name entries;
  if String.eqb (method req) "PUT" then
    let payload := json_or_empty req in
    r ← update_first key_name contractor_id payload entries;
    match r with
    | Some (entries', rec) =>
        Ok (jsonify (message_data "Conversion updated" rec) 200,
            save_data "conversion.json" (rewrap entries' wrapper_key) st)
    | None => Ok (jsonify (error "Not found") 404, st)
    end
  else
    new_entries ← remove_matching key_name contractor_id entries;
    if negb (Nat.eqb (length new_entries) (length entries)) then
      Ok (jsonify (message "Conversion deleted") 200,
          save_data "conversion.json" (rewrap new_entries wrapper_key) st)
    else Ok (jsonify (error "Not found") 404, st).

Definition conversion_update_delete (contractor_id : string) : view :=
  require_token (conversion_update_delete_view contractor_id).

(** *** Routes *)

(** The three collections the [@app.route] lines serve. *)
Inductive collection : Type :=
| Employees
| Contractors
| Conversion.

(** The file the views of a collection load and save. *)
Definition data_file (c : collection) : string :=
  match c with
  | Employees => "employees.json"
  | Contractors => "contractors.json"
  | Conversion => "conversion.json"
  end.

(** [/employees], [/contractors], [/conversion] *)
Definition list_route (c : collection) : view :=
  match c with
  | Employees => employees_handler
  | Contractors => contractors_handler
  | Conversion => conversion_handler
  end.

(** [/employees/<emp_id>], [/contractors/<emp_id>],
    [/conversion/<contractor_id>] *)
Definition item_route (c : collection) (id : string) : view :=
  match c with
  | Employees => employee_update_delete id
  | Contractors => contractor_update_delete id
  | Conversion => conversion_update_delete id
  end.

(** The [key_name] the id route of a collection works with. *)
Definition item_key_name (c : collection) (entries : list json)
  : result string :=
  match c with
  | Employees => Ok employee_key_name
  | Contractors => contractor_key_name entries
  | Conversion => conversion_key_name entries
  end.

End App.

(** *** Token endpoint *)

(** What [get_token] reads of the request: the three form fields when the
    form has them, and the outcome of [get_json(silent=True)], which is
    [None] unless the body is declared JSON and parses. *)
Record token_request : Type := {
  form_client_id : option string;
  form_client_secret : option string;
  form_grant_type : option string;
  get_json_silent : option json
}.

(** [request.form.get(k)] as a Python value: a string or [None]. *)
Definition form_value (o : option string) : json :=
  match o with
  | Some s => JStr s
  | None => JNull
  end.

(** [body.get(k, default)]: only a dict has the method. *)
Definition py_get_default (body : json) (k : string) (default : json)
  : result json :=
  match body with
  | JDict d =>
      Ok (match dict_lookup k d with
          | Some v => v
          | None => default
          end)
  | _ => Raise AttributeError
  end.

(** [x == s] for a string [s]: only that string equals it. *)
Definition eq_str (x : json) (s : string) : bool :=
  match x with
  | JStr t => String.eqb t s
  | _ => false
  end.

(** The body of a successful answer of [/token]. *)
Definition token_grant (cfg : config) : json :=
  JDict [("access_token", JStr (ACCESS_TOKEN cfg));
         ("token_type", JStr "Bearer");
         ("expires_in", JInt 3600)].

Definition get_token (cfg : config) (req : token_request) : result response :=
  let client_id := form_value (form_client_id req) in
  let client_secret := form_value (form_client_secret req) in
  let grant_type := form_value (form_grant_type req) in
  credentials ←
    (if negb (truthy client_id) || negb (truthy client_secret)
        || negb (truthy grant_type)
     then
       let body := match get_json_silent req with
                   | Some j => if truthy j then j else JDict []
                   | None => JDict []
                   end in
       client_id' ← py_get_default body "client_id" client_id;
       client_secret' ← py_get_default body "client_secret" client_secret;
       grant_type' ← py_get_default body "grant_type" grant_type;
       Ok (client_id', client_secret', grant_type')
     else Ok (client_id, client_secret, grant_type));
  let '(client_id, client_secret, grant_type) := credentials in
  if negb (eq_str client_id (CLIENT_ID cfg))
     || negb (eq_str client_secret (CLIENT_SECRET cfg))
  then Ok (jsonify (error "Invalid client credentials") 401)
  else if negb (eq_str grant_type "client_credentials")
  then Ok (jsonify (error "Unsupported grant type") 400)
  else Ok (jsonify (token_grant cfg) 200).

(** ** Vocabulary of the properties *)

(** The record [rec] has the field [k]. *)
Definition has_field (k : string) (rec : json) : bool :=
  match rec with
  | JDict d => dict_has k d
  | _ => false
  end.

(** Some record of the sequence has the field [k]. *)
Definition field_present (k : string) (entries : list json) : bool :=
  existsb (has_field k) entries.

(** Every element of the sequence is a record (a JSON object). *)
Definition records (entries : list json) : Prop :=
  Forall (fun rec => is_record rec = true) entries.

(** The value of the record under [key_name], as text, equals [id]. *)
Definition id_matches (container_repr : json -> string)
  (key_name id : string) (rec : json) : bool :=
  match rec with
  | JDict d => String.eqb (py_str container_repr (dict_get key_name d)) id
  | _ => false
  end.

(** [rewrap] applied to the pair [extract_entries] returns. *)
Definition rewrap_extracted (obj : json) : json :=
  let '(entries, wrapper_key) := extract_entries obj in
  rewrap entries wrapper_key.

(** A mapping whose ["Report_Entry"] field holds a list. *)
Definition wrapper_holds_list (obj : json) : bool :=
  match obj with
  | JDict d =>
      match dict_lookup "Report_Entry" d with
      | Some (JList _) => true
      | _ => false
      end
  | _ => false
  end.

Definition is_list (obj : json) : bool :=
  match obj with
  | JList _ => true
  | _ => false
  end.

(** What the id routes of contractors and conversion compute as their
    [key_name]. *)
Definition resolves_to (cands : list string) (entries : list json)
  (res : result string) : Prop :=
  ((forall k, k ∈ cands -> field_present k entries = false) ->
   res = Ok (hd "" cands))
  /\ (forall pre k post,
        cands = (pre ++ k :: post)%list ->
        field_present k entries = true ->
        (forall k', k' ∈ pre -> field_present k' entries = false) ->
        res = Ok k).

(** The closed form of the loop body of the normalizer on a record. *)
Definition shape_record (cfg : config) (d : list (string * json))
  : list (string * json) :=
  let d1 :=
    if AUTO_CLEAN_TERMINATION_DATE cfg
       && none_or_str "NA" (dict_get "Termination_Date" d)
    then dict_set "Termination_Date" (JStr "") d else d in
  if AUTO_ENSURE_ISACTIVE cfg
     && (negb (dict_has "IsActive" d1)
         || none_or_str "" (dict_get "IsActive" d1))
  then dict_set "IsActive" (JStr "true") d1 else d1.

Definition shape (cfg : config) (rec : json) : json :=
  match rec with
  | JDict d => JDict (shape_record cfg d)
  | _ => rec
  end.

(** The field [k] of [d'] replaces a value of [d] that is absent, null or
    the text [blank] by [fill], and is the field of [d] otherwise. *)
Definition field_filled (k blank : string) (fill : json)
  (d d' : list (string * json)) : Prop :=
  (dict_lookup k d = None \/ dict_lookup k d = Some JNull
   \/ dict_lookup k d = Some (JStr blank) ->
   dict_lookup k d' = Some fill)
  /\ (forall v, dict_lookup k d = Some v -> v <> JNull -> v <> JStr blank ->
                dict_lookup k d' = Some v).

(** [rec'] is the record [rec] as a reader gets it. *)
Definition shaped (rec rec' : json) : Prop :=
  exists d d',
    rec = JDict d /\ rec' = JDict d'
    /\ field_filled "Termination_Date" "NA" (JStr "") d d'
    /\ field_filled "IsActive" "" (JStr "true") d d'
    /\ (forall k, k <> "Termination_Date" -> k <> "IsActive" ->
                  dict_lookup k d' = dict_lookup k d).

(** The request has an [Authorization: Bearer <tok>] header. *)
Definition header_bearer (req : request) (tok : string) : Prop :=
  exists rest,
    authorization req = Some ("Bearer " ++ rest) /\ tok = strip rest.

(** The request supplies the token [tok]: in the header, or else as the
    [access_token] query argument. *)
Definition supplied (req : request) (tok : string) : Prop :=
  tok <> ""
  /\ (header_bearer req tok
      \/ ((forall t, header_bearer req t -> t = "")
          /\ arg_access_token req = Some tok)).

(** The request supplies the configured token. *)
Definition authorized (cfg : config) (req : request) : Prop :=
  supplied req (ACCESS_TOKEN cfg).

(** The body of the request is the JSON object of fields [p]; an absent or
    malformed body has none. *)
Definition body_fields (req : request) (p : list (string * json)) : Prop :=
  get_json req = Some (JDict p) \/ (get_json req = None /\ p = []).

(** The noun the messages of a collection use. *)
Definition label (c : collection) : string :=
  match c with
  | Employees => "Employee"
  | Contractors => "Contractor"
  | Conversion => "Conversion"
  end.

(** ** Sample data *)

Module Sample.

(** No record of the samples holds a list or a dict under a key field, so
    the text chosen here for containers plays no part in them. *)
Definition container_repr (_ : json) : string := "".

Definition request_with (m : string) (payload : option json) : request :=
  {| method := m;
     authorization := Some "Bearer mysecrettoken123";
     arg_access_token := None;
     get_json := payload |}.

Definition worker1 : json :=
  JDict [("Worker_ID", JStr "1"); ("Termination_Date", JStr "NA")].

Definition employees_doc : json := JDict [("Report_Entry", JList [worker1])].

Definition files (doc : json) : store :=
  <["data/employees.json" := doc]>
    (<["data/contractors.json" := doc]>
       (<["data/conversion.json" := doc]> ∅)).

Definition annotated_doc : json :=
  JDict [("Report_Entry", JList [worker1]); ("Report_Name", JStr "workers")].

Definition only_employee_id : list json := [JDict [("employeeID", JStr "7")]].

End Sample.

(** ** Vocabulary of the further properties *)

(** The value [get_token] goes on with for the field [k] once it has turned
    to the JSON body [d]: the body's when the body has the key, otherwise the
    form's. *)
Definition effective (d : list (string * json)) (k : string)
  (form : option string) : json :=
  match dict_lookup k d with
  | Some v => v
  | None => form_value form
  end.

(** The form lacks one of the three fields, or has it empty. *)
Definition form_incomplete (req : token_request) : Prop :=
  no_token (form_client_id req) = true
  \/ no_token (form_client_secret req) = true
  \/ no_token (form_grant_type req) = true.

(** The token a client reads in an answer of [/token]. *)
Definition issued_token (resp : response) : option string :=
  match body resp with
  | JDict d =>
      match dict_lookup "access_token" d with
      | Some (JStr t) => Some t
      | _ => None
      end
  | _ => None
  end.

(** A document in one of the two shapes the codec writes: a bare list, or a
    mapping whose only field is ["Report_Entry"] and holds a list. *)
Definition codec_shape (obj : json) : Prop :=
  exists l, obj = JList l \/ obj = JDict [("Report_Entry", JList l)].

(** The path of the file of a collection. *)
Definition data_path (c : collection) : string := "data/" ++ data_file c.

(** The field names of a record are pairwise distinct, as in a [dict]. *)
Definition distinct_fields (d : list (string * json)) : Prop :=
  NoDup (map fst d).

(** The three field names the id routes may take as key. *)
Definition key_fields : list string :=
  ["employeeID"; "Worker_ID"; "contractorID"].

(** The three checks of [get_token] on the values it has settled on. *)
Definition token_answer (cfg : config) (cid sec gt : json) : response :=
  if negb (eq_str cid (CLIENT_ID cfg)) || negb (eq_str sec (CLIENT_SECRET cfg))
  then jsonify (error "Invalid client credentials") 401
  else if negb (eq_str gt "client_credentials")
  then jsonify (error "Unsupported grant type") 400
  else jsonify (token_grant cfg) 200.

(** The request [req] with another JSON body. *)
Definition with_json (req : token_request) (j : option json) : token_request :=
  {| form_client_id := form_client_id req;
     form_client_secret := form_client_secret req;
     form_grant_type := form_grant_type req;
     get_json_silent := j |}.

(** The JSON body of the token request is the object of fields [d]; a body
    that is not JSON has none. *)
Definition json_fields (req : token_request) (d : list (string * json))
  : Prop :=
  get_json_silent req = Some (JDict d)
  \/ (get_json_silent req = None /\ d = []).

(** What a route may have done to the files when it answers [resp]: nothing,
    or it has replaced the document of its collection by the records
    [entries'] under the wrapper key the document was loaded with, and the
    answer is a success. *)
Definition route_effect (c : collection) (st : store) (resp : response)
  (st' : store) : Prop :=
  st' = st
  \/ exists doc entries wrapper_key entries',
       st !! data_path c = Some doc
       /\ extract_entries doc = (entries, wrapper_key)
       /\ st' = <[data_path c := rewrap entries' wrapper_key]> st
       /\ (status resp = 200%Z \/ status resp = 201%Z).

(** [rec'] is [rec] with nothing taken away: a value that is not a record
    is untouched; a record keeps every field, keeps the value of every field
    but the two the normalizer fills, keeps the value of each of those two
    when its toggle is off, and keeps its field names distinct. *)
Definition filled_from (cfg : config) (rec rec' : json) : Prop :=
  (is_record rec = false -> rec' = rec)
  /\ (forall d, rec = JDict d ->
      exists d',
        rec' = JDict d'
        /\ (forall k, dict_has k d = true -> dict_has k d' = true)
        /\ (forall k, k <> "Termination_Date" -> k <> "IsActive" ->
                      dict_lookup k d' = dict_lookup k d)
        /\ (AUTO_CLEAN_TERMINATION_DATE cfg = false ->
            dict_lookup "Termination_Date" d'
            = dict_lookup "Termination_Date" d)
        /\ (AUTO_ENSURE_ISACTIVE cfg = false ->
            dict_lookup "IsActive" d' = dict_lookup "IsActive" d)
        /\ (distinct_fields d -> distinct_fields d')).

(** A JSON body [dict.update] cannot take: a non-empty string, a number or
    [true]. *)
Definition scalar_payload (j : json) : bool :=
  match j with
  | JStr s => negb (String.eqb s "")
  | JInt z => negb (Z.eqb z 0)
  | JFloat r => negb (String.eqb r "0.0" || String.eqb r "-0.0")
  | JBool b => b
  | _ => false
  end.

(** An object written as the list of its [[key, value]] pairs. *)
Definition as_pairs (p : list (string * json)) : json :=
  JList (map (fun kv => JList [JStr (fst kv); snd kv]) p).

(** ** Further sample data *)

Module Fixture.

Definition form_request : token_request :=
  {| form_client_id := Some "testclient";
     form_client_secret := Some "testsecret";
     form_grant_type := Some "client_credentials";
     get_json_silent := None |}.

Definition json_request (j : json) : token_request :=
  {| form_client_id := None;
     form_client_secret := None;
     form_grant_type := None;
     get_json_silent := Some j |}.

Definition credentials : list (string * json) :=
  [("client_id", JStr "testclient");
   ("client_secret", JStr "testsecret");
   ("grant_type", JStr "client_credentials")].

Definition worker9 : list (string * json) := [("Worker_ID", JStr "9")].

Definition inactive : list (string * json) := [("IsActive", JStr "false")].

Definition files := Sample.files Sample.employees_doc.

(** The files after [worker9] has been appended to the employees. *)
Definition files_with_worker9 : store :=
  <["data/employees.json"
    := JDict [("Report_Entry", JList [Sample.worker1; JDict worker9])]]> files.

(** The files after [inactive] has been merged into the first employee. *)
Definition files_inactive : store :=
  <["data/employees.json"
    := JDict [("Report_Entry",
               JList [JDict [("Worker_ID", JStr "1");
                             ("Termination_Date", JStr "NA");
                             ("IsActive", JStr "false")]])]]> files.

(** The files after the employees have all been removed. *)
Definition files_emptied : store :=
  <["data/employees.json" := JDict [("Report_Entry", JList [])]]> files.

End Fixture.

(** ** Dictionaries *)

Lemma dict_lookup_set_eq k v d : dict_lookup k (dict_set k v d) = Some v.
Proof.
  induction d as [|[k' v'] d IH]; simpl.
  - by rewrite String.eqb_refl.
  - destruct (String.eqb k k') eqn:E; simpl; rewrite E; [done | exact IH].
Qed.

Lemma dict_lookup_set_ne k k' v d :
  k <> k' -> dict_lookup k' (dict_set k v d) = dict_lookup k' d.
Proof.
  intros Hne. induction d as [|[k0 v0] d IH]; simpl.
  - destruct (String.eqb k' k) eqn:E; [|done].
    apply String.eqb_eq in E. congruence.
  - destruct (String.eqb k k0) eqn:E; simpl.
    + apply String.eqb_eq in E. subst k0.
      destruct (String.eqb k' k) eqn:E'; [|done].
      apply String.eqb_eq in E'. congruence.
    + by rewrite IH.
Qed.

Lemma dict_set_same k v d :
  dict_lookup k d = Some v -> dict_set k v d = d.
Proof.
  induction d as [|[k' v'] d IH]; simpl; [done|].
  destruct (String.eqb k k') eqn:E; intros H.
  - by inversion H.
  - by rewrite IH.
Qed.

Lemma dict_has_set k k' v d :
  dict_has k' (dict_set k v d) = String.eqb k k' || dict_has k' d.
Proof.
  unfold dict_has. destruct (String.eqb k k') eqn:E.
  - apply String.eqb_eq in E. subst. by rewrite dict_lookup_set_eq.
  - apply String.eqb_neq in E. by rewrite dict_lookup_set_ne.
Qed.

(** A field the payload does not name keeps its value through a merge. *)
Lemma dict_merge_preserves k d p :
  dict_has k p = false -> dict_lookup k (dict_merge d p) = dict_lookup k d.
Proof.
  unfold dict_merge, dict_has. revert d.
  induction p as [|[k' v'] p IH]; intros d; simpl; [done|].
  rewrite String.eqb_sym.
  destruct (String.eqb k' k) eqn:E; [done|]. intros H.
  rewrite IH by exact H. apply dict_lookup_set_ne.
  by apply String.eqb_neq.
Qed.

(** A field the payload names takes the payload's value. *)
Lemma dict_lookup_elem_of k v d :
  dict_lookup k d = Some v -> k ∈ map fst d.
Proof.
  induction d as [|[k0 v0] d IH]; simpl; [done|].
  destruct (String.eqb k k0) eqn:E; intros H; apply elem_of_cons.
  - left. by apply String.eqb_eq.
  - right. by apply IH.
Qed.

Lemma dict_merge_overrides k v d p :
  NoDup (map fst p) -> (k, v) ∈ p ->
  dict_lookup k (dict_merge d p) = Some v.
Proof.
  unfold dict_merge. revert d.
  induction p as [|[k' v'] p IH]; intros d Hnd Hin; simpl in *.
  - by apply elem_of_nil in Hin.
  - apply NoDup_cons in Hnd as [Hnotin Hnd].
    apply elem_of_cons in Hin as [Heq | Hin].
    + inversion Heq; subst.
      assert (Hp : dict_has k' p = false).
      { unfold dict_has. destruct (dict_lookup k' p) eqn:El; [|done].
        exfalso. apply Hnotin. by eapply dict_lookup_elem_of. }
      pose proof (dict_merge_preserves k' (dict_set k' v' d) p Hp) as Hm.
      unfold dict_merge in Hm. rewrite Hm. apply dict_lookup_set_eq.
    + by apply IH.
Qed.

Lemma dict_get_set_eq k v d : dict_get k (dict_set k v d) = v.
Proof. unfold dict_get. by rewrite dict_lookup_set_eq. Qed.

Lemma dict_get_set_ne k k' v d :
  k <> k' -> dict_get k' (dict_set k v d) = dict_get k' d.
Proof. intros H. unfold dict_get. by rewrite dict_lookup_set_ne. Qed.

(** ** Envelope codec *)

Lemma extract_entries_wrapped obj :
  wrapper_holds_list obj = true ->
  exists d l, obj = JDict d /\ dict_lookup "Report_Entry" d = Some (JList l)
              /\ extract_entries obj = (l, Some "Report_Entry").
Proof.
  destruct obj as [| | | | | |d]; simpl; try discriminate.
  destruct (dict_lookup "Report_Entry" d) as [[| | | | |l|]|] eqn:E;
    try discriminate.
  intros _. by exists d, l.
Qed.

Lemma extract_entries_other obj :
  is_list obj = false -> wrapper_holds_list obj = false ->
  extract_entries obj = ([], None).
Proof.
  destruct obj as [| | | | | |d]; simpl; try done.
  by destruct (dict_lookup "Report_Entry" d) as [[| | | | |l|]|].
Qed.

(** C3, as stated, fails: a mapping whose ["Report_Entry"] holds a list and
    that has a second field comes back from [rewrap] without that field (and
    it is not answered with the empty sequence either). *)
Lemma round_trip_drops_other_fields :
  wrapper_holds_list Sample.annotated_doc = true
  /\ rewrap_extracted Sample.annotated_doc <> Sample.annotated_doc
  /\ extract_entries Sample.annotated_doc <> ([], None).
Proof. split; [reflexivity | split; discriminate]. Qed.

(** C3, amended: [rewrap] applied to what [extract_entries] returns gives
    the document back when the document is a bare list, or a mapping whose
    only field is ["Report_Entry"] and holds a list; a mapping that has a
    list under ["Report_Entry"] among its fields yields that list and the
    wrapper key; every document that is neither a list nor such a mapping
    yields the empty sequence and no wrapper key. *)
Theorem envelope_round_trip :
  (forall l, rewrap_extracted (JList l) = JList l)
  /\ (forall l, rewrap_extracted (JDict [("Report_Entry", JList l)])
                = JDict [("Report_Entry", JList l)])
  /\ (forall d l, dict_lookup "Report_Entry" d = Some (JList l) ->
                  extract_entries (JDict d) = (l, Some "Report_Entry"))
  /\ (forall obj, is_list obj = false -> wrapper_holds_list obj = false ->
                  extract_entries obj = ([], None)).
Proof.
  repeat split.
  - intros d l H. simpl. by rewrite H.
  - apply extract_entries_other.
Qed.

Lemma envelope_round_trip_witness :
  extract_entries Sample.annotated_doc = ([Sample.worker1], Some "Report_Entry")
  /\ extract_entries (JStr "Report_Entry") = ([], None).
Proof.
  destruct envelope_round_trip as (_ & _ & Hwrapped & Hother). split.
  - apply Hwrapped. reflexivity.
  - apply Hother; reflexivity.
Defined.

(** ** Key resolver *)

Lemma any_has_records k entries :
  records entries -> any_has k entries = Ok (field_present k entries).
Proof.
  induction 1 as [|rec rest Hrec _ IH]; simpl; [done|].
  destruct rec; try discriminate. simpl.
  destruct (dict_has k d); [done | exact IH].
Qed.

Lemma resolve_key_records cands entries dflt :
  records entries ->
  resolve_key cands entries dflt
  = Ok (default dflt (find (fun k => field_present k entries) cands)).
Proof.
  intros Hrec. induction cands as [|k ks IH]; simpl; [done|].
  rewrite any_has_records by exact Hrec. simpl.
  destruct (field_present k entries); [done | exact IH].
Qed.

Lemma find_none_absent (f : string -> bool) cands :
  (forall k, k ∈ cands -> f k = false) -> find f cands = None.
Proof.
  induction cands as [|k ks IH]; simpl; [done|]. intros H.
  rewrite (H k) by apply list_elem_of_here.
  apply IH. intros k' Hk'. apply H. by apply list_elem_of_further.
Qed.

Lemma find_first_present (f : string -> bool) pre k post :
  f k = true -> (forall k', k' ∈ pre -> f k' = false) ->
  find f (pre ++ k :: post) = Some k.
Proof.
  intros Hk. induction pre as [|k0 pre IH]; simpl; intros H.
  - by rewrite Hk.
  - rewrite (H k0) by apply list_elem_of_here.
    apply IH. intros k' Hk'. apply H. by apply list_elem_of_further.
Qed.

(** C1, as stated, fails: on the empty sequence the contractors route
    resolves to ["employeeID"], the first candidate of its list, and not to
    the last one, ["contractorID"]. *)
Lemma resolve_empty_is_not_last :
  last contractor_key_candidates = Some "contractorID"
  /\ field_present "contractorID" [] = false
  /\ contractor_key_name [] = Ok "employeeID"
  /\ contractor_key_name [] <> Ok "contractorID".
Proof. repeat split. discriminate. Qed.

(** C1, amended: on a sequence of records, when no candidate field is present
    in any record (in particular on the empty sequence) the resolver returns
    the first candidate of the list; otherwise it returns the first
    candidate, in list order, that is a field of at least one record. *)
Theorem key_resolution_fallback entries :
  records entries ->
  resolves_to contractor_key_candidates entries (contractor_key_name entries)
  /\ resolves_to conversion_key_candidates entries
       (conversion_key_name entries).
Proof.
  intros Hrec. unfold contractor_key_name, conversion_key_name.
  rewrite !resolve_key_records by exact Hrec.
  split; split.
  - intros H. by rewrite find_none_absent.
  - intros pre k post -> Hk Hpre. by rewrite find_first_present.
  - intros H. by rewrite find_none_absent.
  - intros pre k post -> Hk Hpre. by rewrite find_first_present.
Qed.

Lemma key_resolution_fallback_witness :
  contractor_key_name [] = Ok "employeeID"
  /\ conversion_key_name Sample.only_employee_id = Ok "employeeID".
Proof.
  split.
  - apply (key_resolution_fallback []); [constructor|].
    intros k _. reflexivity.
  - destruct (key_resolution_fallback Sample.only_employee_id) as [_ [_ H]].
    { repeat constructor. }
    apply (H ["contractorID"; "Worker_ID"] "employeeID" []);
      [reflexivity | reflexivity |].
    intros k' Hk'. apply elem_of_cons in Hk' as [-> | Hk']; [reflexivity|].
    apply list_elem_of_singleton in Hk' as ->. reflexivity.
Defined.

(** ** Record normalizer *)

Lemma normalize_record_dict cfg d :
  normalize_record cfg (JDict d) = Ok (JDict (shape_record cfg d)).
Proof.
  unfold normalize_record, shape_record.
  destruct (AUTO_CLEAN_TERMINATION_DATE cfg), (AUTO_ENSURE_ISACTIVE cfg);
    simpl.
  all: try destruct (none_or_str "NA" (dict_get "Termination_Date" d)); simpl.
  all: try match goal with
           | |- context [dict_has "IsActive" ?x] =>
               destruct (dict_has "IsActive" x); simpl
           end.
  all: try match goal with
           | |- context [none_or_str "" ?x] =>
               destruct (none_or_str "" x); simpl
           end.
  all: reflexivity.
Qed.

Lemma shape_record_idem cfg d :
  shape_record cfg (shape_record cfg d) = shape_record cfg d.
Proof.
  assert (Hne : "Termination_Date" <> "IsActive") by discriminate.
  assert (Hne' : "IsActive" <> "Termination_Date") by discriminate.
  unfold shape_record.
  destruct (AUTO_CLEAN_TERMINATION_DATE cfg), (AUTO_ENSURE_ISACTIVE cfg);
    simpl.
  all: repeat match goal with
         | |- context [if ?b then _ else _] =>
             let E := fresh "E" in destruct b eqn:E
         | _ => progress
                  (rewrite ?dict_get_set_eq, ?dict_has_set,
                     ?(dict_get_set_ne _ _ _ _ Hne),
                     ?(dict_get_set_ne _ _ _ _ Hne') in *;
                   simpl in * )
         end.
  all: try reflexivity.
  all: congruence.
Qed.

(** The loop body either raises or leaves a record it would not change. *)
Lemma normalize_record_idem cfg rec rec' :
  normalize_record cfg rec = Ok rec' -> normalize_record cfg rec' = Ok rec'.
Proof.
  destruct rec as [| | | | | |d].
  7: { rewrite normalize_record_dict. intros [= <-].
       by rewrite normalize_record_dict, shape_record_idem. }
  all: unfold normalize_record;
    destruct (AUTO_CLEAN_TERMINATION_DATE cfg), (AUTO_ENSURE_ISACTIVE cfg);
    simpl; try discriminate.
  all: try (intros [= <-]; reflexivity).
  all: match goal with
       | |- context [if negb ?b then _ else _] => destruct b; simpl
       end; discriminate.
Qed.

Lemma normalize_records cfg entries :
  records entries ->
  normalize_for_saviynt cfg entries = Ok (map (shape cfg) entries).
Proof.
  induction 1 as [|rec rest Hrec _ IH]; simpl; [done|].
  destruct rec; try discriminate.
  rewrite normalize_record_dict. simpl. by rewrite IH.
Qed.

(** C7: under every setting of the two toggles, normalizing what the
    normalizer returned returns it unchanged; and on a sequence of records
    the normalizer does return. *)
Theorem normalize_idempotent cfg entries :
  (forall entries',
      normalize_for_saviynt cfg entries = Ok entries' ->
      normalize_for_saviynt cfg entries' = Ok entries')
  /\ (records entries ->
      exists entries', normalize_for_saviynt cfg entries = Ok entries').
Proof.
  split.
  - induction entries as [|rec rest IH]; simpl; intros entries'.
    + by intros [= <-].
    + destruct (normalize_record cfg rec) as [rec'|] eqn:Erec;
        simpl; [|discriminate].
      destruct (normalize_for_saviynt cfg rest) as [rest'|] eqn:Erest;
        simpl; [|discriminate].
      intros [= <-]. simpl.
      rewrite (normalize_record_idem _ _ _ Erec). simpl.
      by rewrite (IH rest').
  - intros Hrec. eexists. by apply normalize_records.
Qed.

Lemma normalize_idempotent_witness :
  normalize_for_saviynt app_config
    [JDict [("Worker_ID", JStr "1"); ("Termination_Date", JStr "");
            ("IsActive", JStr "true")]]
  = Ok [JDict [("Worker_ID", JStr "1"); ("Termination_Date", JStr "");
               ("IsActive", JStr "true")]].
Proof.
  apply (normalize_idempotent app_config [Sample.worker1]). reflexivity.
Defined.

(** ** Access gate *)

Lemma prefix_app p rest : String.prefix p (p ++ rest) = true.
Proof.
  induction p as [|c p IH]; simpl; [by destruct rest|].
  destruct (ascii_dec c c); [exact IH | done].
Qed.

Lemma prefix_inv p h : String.prefix p h = true -> exists rest, h = p ++ rest.
Proof.
  revert h. induction p as [|c p IH]; intros h.
  - intros _. by exists h.
  - destruct h as [|c' h]; simpl; [discriminate|].
    destruct (ascii_dec c c') as [->|]; [|discriminate].
    intros H. destruct (IH h H) as [rest ->]. by exists rest.
Qed.

Lemma append_inv_head (p a b : string) : p ++ a = p ++ b -> a = b.
Proof.
  induction p as [|c p IH]; simpl; [done|]. intros [= H]. by apply IH.
Qed.

Lemma header_token_bearer req rest :
  authorization req = Some ("Bearer " ++ rest) ->
  header_token req = Ok (Some (strip rest)).
Proof.
  intros H. unfold header_token. rewrite H. simpl default.
  rewrite prefix_app. reflexivity.
Qed.

Lemma header_token_cases req :
  (exists rest, authorization req = Some ("Bearer " ++ rest)
                /\ header_token req = Ok (Some (strip rest)))
  \/ ((forall t, ~ header_bearer req t) /\ header_token req = Ok None).
Proof.
  destruct (authorization req) as [h|] eqn:E.
  - destruct (String.prefix "Bearer " h) eqn:P.
    + apply prefix_inv in P as [rest ->]. left. exists rest.
      split; [done|]. by apply header_token_bearer.
    + right. split.
      * intros t [rest [Hr _]]. rewrite E in Hr. injection Hr as Hh.
        rewrite Hh, prefix_app in P. discriminate.
      * unfold header_token. rewrite E. simpl default. by rewrite P.
  - right. split.
    + intros t [rest [Hr _]]. rewrite E in Hr. discriminate.
    + unfold header_token. by rewrite E.
Qed.

Lemma request_token_supplied req tok :
  supplied req tok -> request_token req = Ok (Some tok).
Proof.
  intros [Hne Hsup]. unfold request_token.
  destruct (header_token_cases req) as [(rest & Hauth & ->) | [Hno ->]];
    simpl.
  - destruct Hsup as [[rest' [Hauth' ->]] | [Hnone Harg]].
    + rewrite Hauth in Hauth'. injection Hauth' as Hrest.
      apply append_inv_head in Hrest as <-.
      apply String.eqb_neq in Hne. by rewrite Hne.
    + rewrite (Hnone (strip rest)) by (by exists rest). simpl.
      by rewrite Harg.
  - destruct Hsup as [Hb | [_ Harg]]; [by apply Hno in Hb|].
    by rewrite Harg.
Qed.

Lemma request_token_missing req :
  (forall tok, ~ supplied req tok) ->
  exists o, request_token req = Ok o /\ no_token o = true.
Proof.
  intros H. unfold request_token.
  destruct (header_token_cases req) as [(rest & Hauth & ->) | [Hno ->]];
    simpl.
  - destruct (String.eqb (strip rest) "") eqn:Es.
    + apply String.eqb_eq in Es. eexists. split; [reflexivity|].
      destruct (arg_access_token req) as [t|] eqn:Ea; [|done]. simpl.
      destruct (String.eqb t "") eqn:Et; [done|].
      exfalso. apply (H t). split; [by apply String.eqb_neq|].
      right. split; [|done].
      intros t' [rest' [Hr ->]]. rewrite Hauth in Hr.
      injection Hr as Hrest. by apply append_inv_head in Hrest as <-.
    + exfalso. apply (H (strip rest)). split; [by apply String.eqb_neq|].
      left. by exists rest.
  - eexists. split; [reflexivity|].
    destruct (arg_access_token req) as [t|] eqn:Ea; [|done]. simpl.
    destruct (String.eqb t "") eqn:Et; [done|].
    exfalso. apply (H t). split; [by apply String.eqb_neq|].
    right. split; [|done]. intros t' Ht'. by apply Hno in Ht'.
Qed.

Lemma require_token_pass cfg f req st :
  authorized cfg req -> require_token cfg f req st = f req st.
Proof.
  intros H. unfold require_token.
  rewrite (request_token_supplied _ _ H). simpl.
  destruct H as [Hne _]. apply String.eqb_neq in Hne. rewrite Hne.
  by rewrite String.eqb_refl.
Qed.

(** C8: on every request to a gated route, when no token is supplied (no
    [Authorization: Bearer] header with a token, and no [access_token] query
    argument to fall back on) the answer is 401; when the token supplied is
    not the configured one the answer is 403; when it is the configured one
    the request goes on to the view; and each of the six CRUD routes is a
    view behind this gate. *)
Theorem access_gate cfg f req st :
  ((forall tok, ~ supplied req tok) ->
   require_token cfg f req st
   = Ok (jsonify (error "Missing access token") 401, st))
  /\ (forall tok, supplied req tok -> tok <> ACCESS_TOKEN cfg ->
      require_token cfg f req st
      = Ok (jsonify (error "Invalid access token") 403, st))
  /\ (forall tok, supplied req tok -> tok = ACCESS_TOKEN cfg ->
      require_token cfg f req st = f req st)
  /\ (forall c, exists g, list_route cfg c = require_token cfg g)
  /\ (forall container_repr c id,
        exists g, item_route cfg container_repr c id = require_token cfg g).
Proof.
  split; [|split; [|split; [|split]]].
  4: { intros []; by eexists. }
  4: { intros container_repr [] id; by eexists. }
  - intros H. destruct (request_token_missing _ H) as (o & Ho & Hno).
    unfold require_token. rewrite Ho. simpl. by rewrite Hno.
  - intros tok H Hne. unfold require_token.
    rewrite (request_token_supplied _ _ H). simpl.
    destruct H as [Hnonempty _].
    apply String.eqb_neq in Hnonempty. rewrite Hnonempty.
    apply String.eqb_neq in Hne. by rewrite Hne.
  - intros tok H ->. by apply require_token_pass.
Qed.

Lemma access_gate_witness :
  require_token app_config (employees_handler_view app_config)
    (Sample.request_with "GET" None) (Sample.files Sample.employees_doc)
  = employees_handler_view app_config
      (Sample.request_with "GET" None) (Sample.files Sample.employees_doc).
Proof.
  apply (access_gate app_config (employees_handler_view app_config)
           (Sample.request_with "GET" None)
           (Sample.files Sample.employees_doc)) with "mysecrettoken123";
    [|reflexivity].
  split; [discriminate|]. left. by exists "mysecrettoken123".
Defined.

(** ** Reading and creating *)

Lemma sample_authorized m payload :
  authorized app_config (Sample.request_with m payload).
Proof. split; [discriminate|]. left. by exists "mysecrettoken123". Qed.

Lemma none_or_str_true s x :
  none_or_str s x = true <-> x = JNull \/ x = JStr s.
Proof.
  destruct x as [| | | |t| |]; simpl.
  5: { rewrite String.eqb_eq. split.
       - intros ->. by right.
       - by intros [?|[= ->]]. }
  all: split; [try discriminate; auto | by intros [?|?]].
Qed.

Lemma shape_record_shaped cfg d :
  AUTO_CLEAN_TERMINATION_DATE cfg = true ->
  AUTO_ENSURE_ISACTIVE cfg = true ->
  shaped (JDict d) (JDict (shape_record cfg d)).
Proof.
  intros Hclean Hensure. exists d, (shape_record cfg d).
  assert (Hne : "Termination_Date" <> "IsActive") by discriminate.
  assert (Hne' : "IsActive" <> "Termination_Date") by discriminate.
  split; [done|]. split; [done|].
  unfold shape_record. rewrite Hclean, Hensure. simpl.
  set (d1 := if none_or_str "NA" (dict_get "Termination_Date" d)
             then dict_set "Termination_Date" (JStr "") d else d).
  assert (Hact : dict_lookup "IsActive" d1 = dict_lookup "IsActive" d).
  { unfold d1. destruct (none_or_str _ _); [|done].
    by apply dict_lookup_set_ne. }
  assert (Hother : forall k, k <> "Termination_Date" ->
            dict_lookup k d1 = dict_lookup k d).
  { intros k Hk. unfold d1. destruct (none_or_str _ _); [|done].
    apply dict_lookup_set_ne. congruence. }
  assert (Hlast : forall k, k <> "IsActive" ->
            dict_lookup k
              (if negb (dict_has "IsActive" d1)
                  || none_or_str "" (dict_get "IsActive" d1)
               then dict_set "IsActive" (JStr "true") d1 else d1)
            = dict_lookup k d1).
  { intros k Hk. destruct (_ || _); [|done].
    apply dict_lookup_set_ne. congruence. }
  repeat split.
  - intros Hblank. rewrite Hlast by done. unfold d1.
    assert (none_or_str "NA" (dict_get "Termination_Date" d) = true) as ->.
    { apply none_or_str_true. unfold dict_get.
      destruct Hblank as [-> | [-> | ->]]; auto. }
    apply dict_lookup_set_eq.
  - intros v Hv Hnull Hna. rewrite Hlast by done. unfold d1.
    assert (none_or_str "NA" (dict_get "Termination_Date" d) = false) as ->.
    { apply not_true_is_false. rewrite none_or_str_true.
      unfold dict_get. rewrite Hv. tauto. }
    exact Hv.
  - intros Hblank.
    assert (negb (dict_has "IsActive" d1)
            || none_or_str "" (dict_get "IsActive" d1) = true) as ->.
    { unfold dict_has, dict_get. rewrite Hact.
      destruct Hblank as [-> | [-> | ->]]; done. }
    apply dict_lookup_set_eq.
  - intros v Hv Hnull Hempty.
    assert (negb (dict_has "IsActive" d1)
            || none_or_str "" (dict_get "IsActive" d1) = false) as ->.
    { unfold dict_has, dict_get. rewrite Hact, Hv. simpl.
      apply not_true_is_false. rewrite none_or_str_true. tauto. }
    by rewrite Hact.
  - intros k Hk1 Hk2. rewrite Hlast by done. by apply Hother.
Qed.

Lemma shape_all_shaped cfg entries :
  AUTO_CLEAN_TERMINATION_DATE cfg = true ->
  AUTO_ENSURE_ISACTIVE cfg = true ->
  records entries ->
  Forall2 shaped entries (map (shape cfg) entries).
Proof.
  intros Hclean Hensure. induction 1 as [|rec rest Hrec _ IH]; simpl.
  - constructor.
  - constructor; [|exact IH]. destruct rec; try discriminate.
    by apply shape_record_shaped.
Qed.

Lemma load_data_file (st : store) c doc :
  st !! ("data/" ++ data_file c) = Some doc ->
  load_data (data_file c) st = Ok doc.
Proof. intros H. unfold load_data. by rewrite H. Qed.

(** C6: with both toggles on, as the source sets them, a GET of the
    employees or of the contractors collection returns every record with a
    [Termination_Date] that was absent, null or ["NA"] set to the empty
    string, an [IsActive] that was absent, null or empty set to ["true"],
    and nothing else changed; a GET of the conversion collection returns the
    records as they are stored; and the document
    [{"Report_Entry":[{"Worker_ID":"1","Termination_Date":"NA"}]}] is
    returned as
    [{"Report_Entry":[{"Worker_ID":"1","Termination_Date":"","IsActive":"true"}]}]. *)
Theorem get_normalizes_records cfg c req (st : store) doc entries wrapper_key :
  AUTO_CLEAN_TERMINATION_DATE cfg = true ->
  AUTO_ENSURE_ISACTIVE cfg = true ->
  authorized cfg req ->
  method req = "GET" ->
  st !! ("data/" ++ data_file c) = Some doc ->
  extract_entries doc = (entries, wrapper_key) ->
  (c <> Conversion -> records entries ->
   exists entries',
     list_route cfg c req st = Ok (jsonify (rewrap entries' wrapper_key) 200, st)
     /\ Forall2 shaped entries entries')
  /\ (c = Conversion ->
      list_route cfg c req st = Ok (jsonify (rewrap entries wrapper_key) 200, st))
  /\ (c = Employees -> doc = Sample.employees_doc ->
      list_route cfg c req st
      = Ok (jsonify
              (JDict [("Report_Entry",
                       JList [JDict [("Worker_ID", JStr "1");
                                     ("Termination_Date", JStr "");
                                     ("IsActive", JStr "true")]])]) 200,
            st)).
Proof.
  intros Hclean Hensure Hauth Hget Hst Hext.
  apply load_data_file in Hst.
  repeat split.
  - intros Hc Hrec. exists (map (shape cfg) entries).
    split; [|by apply shape_all_shaped].
    destruct c; [| |done]; simpl in *.
    all: unfold employees_handler, contractors_handler;
      rewrite require_token_pass by done;
      unfold employees_handler_view, contractors_handler_view;
      rewrite Hst; simpl; rewrite Hext, Hget; simpl;
      by rewrite normalize_records.
  - intros ->. simpl in *. unfold conversion_handler.
    rewrite require_token_pass by done.
    unfold conversion_handler_view. rewrite Hst. simpl.
    by rewrite Hext, Hget.
  - intros -> ->. simpl in *. unfold employees_handler.
    rewrite require_token_pass by done.
    unfold employees_handler_view. rewrite Hst. simpl. rewrite Hget. simpl.
    unfold normalize_record. rewrite Hclean, Hensure. reflexivity.
Qed.

Lemma get_normalizes_records_witness :
  list_route app_config Employees (Sample.request_with "GET" None)
    (Sample.files Sample.employees_doc)
  = Ok (jsonify
          (JDict [("Report_Entry",
                   JList [JDict [("Worker_ID", JStr "1");
                                 ("Termination_Date", JStr "");
                                 ("IsActive", JStr "true")]])]) 200,
        Sample.files Sample.employees_doc).
Proof.
  apply (get_normalizes_records app_config Employees
           (Sample.request_with "GET" None)
           (Sample.files Sample.employees_doc) Sample.employees_doc
           [Sample.worker1] (Some "Report_Entry"));
    try reflexivity.
  apply sample_authorized.
Defined.

(** C9: a POST to a collection appends one record to the record sequence
    and saves the document under the wrapper key it was loaded with; the
    record is the empty record when the body is absent or malformed (and
    when it parses to a JSON value that counts as false), and the parsed
    body otherwise; the answer has status 201 and carries that record under
    ["data"], beside the message of the collection. *)
Theorem post_appends_record cfg c req (st : store) doc entries wrapper_key :
  authorized cfg req ->
  method req = "POST" ->
  st !! ("data/" ++ data_file c) = Some doc ->
  extract_entries doc = (entries, wrapper_key) ->
  exists new_item resp,
    list_route cfg c req st
    = Ok (resp,
          <["data/" ++ data_file c
            := rewrap (entries ++ [new_item])%list wrapper_key]> st)
    /\ status resp = 201%Z
    /\ body resp
       = JDict [("message",
                 JStr match c with
                      | Employees => "Employee added"
                      | Contractors => "Contractor added"
                      | Conversion => "Conversion added"
                      end);
                ("data", new_item)]
    /\ (get_json req = None -> new_item = JDict [])
    /\ (forall j, get_json req = Some j ->
                  new_item = if truthy j then j else JDict [])
    /\ (forall l, doc = JDict [("Report_Entry", JList l)] ->
                  rewrap (entries ++ [new_item])%list wrapper_key
                  = JDict [("Report_Entry", JList (l ++ [new_item])%list)])
    /\ (forall l, doc = JList l ->
                  rewrap (entries ++ [new_item])%list wrapper_key
                  = JList (l ++ [new_item])%list).
Proof.
  intros Hauth Hpost Hst Hext. apply load_data_file in Hst.
  exists (json_or_empty req).
  exists (jsonify (message_data (label c ++ " added") (json_or_empty req))
            201).
  split; [|split; [|split; [|repeat split]]].
  - destruct c; simpl in *;
      unfold employees_handler, contractors_handler, conversion_handler;
      rewrite require_token_pass by done;
      unfold employees_handler_view, contractors_handler_view,
        conversion_handler_view;
      rewrite Hst; simpl; rewrite Hext, Hpost; reflexivity.
  - reflexivity.
  - by destruct c.
  - intros H. unfold json_or_empty. by rewrite H.
  - intros j H. unfold json_or_empty. by rewrite H.
  - intros l ->. by injection Hext as <- <-.
  - intros l ->. by injection Hext as <- <-.
Qed.

Lemma post_appends_record_witness :
  exists new_item resp,
    list_route app_config Employees (Sample.request_with "POST" None)
      (Sample.files Sample.employees_doc)
    = Ok (resp,
          <["data/employees.json"
            := JDict [("Report_Entry", JList [Sample.worker1; new_item])]]>
            (Sample.files Sample.employees_doc))
    /\ status resp = 201%Z
    /\ body resp
       = JDict [("message", JStr "Employee added"); ("data", new_item)]
    /\ new_item = JDict [].
Proof.
  destruct (post_appends_record app_config Employees
              (Sample.request_with "POST" None)
              (Sample.files Sample.employees_doc) Sample.employees_doc
              [Sample.worker1] (Some "Report_Entry")
              (sample_authorized _ _) eq_refl eq_refl eq_refl)
    as (new_item & resp & Hroute & Hstatus & Hbody & Hnone & _).
  exists new_item, resp.
  split; [exact Hroute|]. split; [exact Hstatus|].
  split; [exact Hbody | by apply Hnone].
Defined.

(** ** Updating and deleting by identifier *)

Section ItemRoutes.

Variable cfg : config.
Variable container_repr : json -> string.

Local Abbreviation matches := (id_matches container_repr).

Lemma key_matches_record key_name id d :
  key_matches container_repr key_name id (JDict d)
  = Ok (matches key_name id (JDict d)).
Proof. reflexivity. Qed.

Lemma remove_matching_records key_name id entries :
  records entries ->
  remove_matching container_repr key_name id entries
  = Ok (List.filter (fun rec => negb (matches key_name id rec)) entries).
Proof.
  induction 1 as [|rec rest Hrec _ IH]; simpl; [done|].
  destruct rec; try discriminate.
  rewrite key_matches_record, IH. simpl.
  by destruct (String.eqb _ id).
Qed.

Lemma update_first_miss key_name id payload entries :
  records entries ->
  Forall (fun rec => matches key_name id rec = false) entries ->
  update_first container_repr key_name id payload entries = Ok None.
Proof.
  induction 1 as [|rec rest Hrec _ IH]; simpl; [done|].
  intros Hno. apply Forall_cons in Hno as [Hrec' Hrest].
  destruct rec; try discriminate.
  rewrite key_matches_record, Hrec'. simpl. by rewrite IH.
Qed.

Lemma update_first_hit key_name id p pre d post :
  records pre ->
  Forall (fun rec => matches key_name id rec = false) pre ->
  matches key_name id (JDict d) = true ->
  update_first container_repr key_name id (JDict p)
    (pre ++ JDict d :: post)%list
  = Ok (Some ((pre ++ JDict (dict_merge d p) :: post)%list,
              JDict (dict_merge d p))).
Proof.
  intros Hrec Hno Hd.
  induction Hrec as [|rec rest Hrec _ IH]; simpl.
  - simpl in Hd. by rewrite Hd.
  - apply Forall_cons in Hno as [Hrec' Hrest].
    destruct rec; try discriminate.
    rewrite key_matches_record, Hrec'. simpl. by rewrite IH.
Qed.

Lemma filter_keeps_all {A} (f : A -> bool) l :
  Forall (fun x => f x = true) l -> List.filter f l = l.
Proof.
  induction 1 as [|x l Hx _ IH]; simpl; [done|]. by rewrite Hx, IH.
Qed.

Lemma filter_length_all {A} (f : A -> bool) l :
  length (List.filter f l) = length l -> Forall (fun x => f x = true) l.
Proof.
  induction l as [|x l IH]; simpl; [constructor|].
  pose proof (List.filter_length_le f l) as Hle.
  destruct (f x) eqn:E; simpl; intros H.
  - constructor; [done|]. apply IH. lia.
  - lia.
Qed.

Lemma first_match {A} (f : A -> bool) l :
  Exists (fun x => f x = true) l ->
  exists pre x post,
    l = (pre ++ x :: post)%list /\ f x = true
    /\ Forall (fun y => f y = false) pre.
Proof.
  induction l as [|y l IH]; intros H.
  - by apply Exists_nil in H.
  - destruct (f y) eqn:E.
    + by exists [], y, l.
    + apply Exists_cons in H as [H|H]; [congruence|].
      destruct (IH H) as (pre & x & post & -> & Hx & Hpre).
      exists (y :: pre), x, post. repeat split; [done|].
      by constructor.
Qed.

Lemma item_key_name_records c entries :
  records entries -> exists key_name, item_key_name c entries = Ok key_name.
Proof.
  intros Hrec. destruct c; simpl.
  - by eexists.
  - unfold contractor_key_name. rewrite resolve_key_records by done.
    by eexists.
  - unfold conversion_key_name. rewrite resolve_key_records by done.
    by eexists.
Qed.

Lemma body_fields_payload req p :
  body_fields req p -> json_or_empty req = JDict p.
Proof.
  unfold json_or_empty. intros [-> | [-> ->]]; [|done].
  by destruct p.
Qed.

(** The id route of a collection, past the gate, for a PUT. *)
Lemma item_route_put c id req (st : store) doc entries wrapper_key key_name :
  authorized cfg req ->
  method req = "PUT" ->
  st !! ("data/" ++ data_file c) = Some doc ->
  extract_entries doc = (entries, wrapper_key) ->
  item_key_name c entries = Ok key_name ->
  item_route cfg container_repr c id req st
  = (r ← update_first container_repr key_name id (json_or_empty req) entries;
     match r with
     | Some (entries', rec) =>
         Ok (jsonify
               (message_data (label c ++ " updated")
                  (match c with
                   | Employees => json_or_empty req
                   | _ => rec
                   end)) 200,
             <["data/" ++ data_file c := rewrap entries' wrapper_key]> st)
     | None => Ok (jsonify (error "Not found") 404, st)
     end).
Proof.
  intros Hauth Hput Hst Hext Hkey. apply load_data_file in Hst.
  destruct c; simpl in *;
    unfold employee_update_delete, contractor_update_delete,
      conversion_update_delete;
    rewrite require_token_pass by done;
    unfold employee_update_delete_view, contractor_update_delete_view,
      conversion_update_delete_view;
    rewrite Hst; simpl; rewrite Hext; simpl; rewrite ?Hkey; simpl;
    rewrite Hput; simpl.
  - injection Hkey as <-.
    destruct (update_first _ _ _ _ _) as [[[? ?]|]|]; reflexivity.
  - destruct (update_first _ _ _ _ _) as [[[? ?]|]|]; reflexivity.
  - destruct (update_first _ _ _ _ _) as [[[? ?]|]|]; reflexivity.
Qed.

(** The id route of a collection, past the gate, for a DELETE. *)
Lemma item_route_delete c id req (st : store) doc entries wrapper_key key_name :
  authorized cfg req ->
  method req = "DELETE" ->
  st !! ("data/" ++ data_file c) = Some doc ->
  extract_entries doc = (entries, wrapper_key) ->
  item_key_name c entries = Ok key_name ->
  item_route cfg container_repr c id req st
  = (new_entries ← remove_matching container_repr key_name id entries;
     if negb (Nat.eqb (length new_entries) (length entries)) then
       Ok (jsonify (message (label c ++ " deleted")) 200,
           <["data/" ++ data_file c := rewrap new_entries wrapper_key]> st)
     else Ok (jsonify (error "Not found") 404, st)).
Proof.
  intros Hauth Hdel Hst Hext Hkey. apply load_data_file in Hst.
  destruct c; simpl in *;
    unfold employee_update_delete, contractor_update_delete,
      conversion_update_delete;
    rewrite require_token_pass by done;
    unfold employee_update_delete_view, contractor_update_delete_view,
      conversion_update_delete_view;
    rewrite Hst; simpl; rewrite Hext; simpl; rewrite ?Hkey; simpl;
    rewrite Hdel; simpl.
  - injection Hkey as <-. reflexivity.
  - reflexivity.
  - reflexivity.
Qed.

Lemma keyless_matches_none key_name rec :
  is_record rec = true -> has_field key_name rec = false ->
  matches key_name "None" rec = true.
Proof.
  destruct rec; try discriminate. intros _. simpl.
  unfold dict_has, dict_get. by destruct (dict_lookup key_name d).
Qed.

Lemma put_hit c id req (st : store) doc wrapper_key key_name p pre d post :
  authorized cfg req ->
  method req = "PUT" ->
  st !! ("data/" ++ data_file c) = Some doc ->
  extract_entries doc = ((pre ++ JDict d :: post)%list, wrapper_key) ->
  records pre ->
  item_key_name c (pre ++ JDict d :: post)%list = Ok key_name ->
  body_fields req p ->
  Forall (fun rec => matches key_name id rec = false) pre ->
  matches key_name id (JDict d) = true ->
  exists resp,
    item_route cfg container_repr c id req st
    = Ok (resp,
          <["data/" ++ data_file c
            := rewrap (pre ++ JDict (dict_merge d p) :: post)%list
                 wrapper_key]> st)
    /\ status resp = 200%Z.
Proof.
  intros Hauth Hput Hst Hext Hrec Hkey Hbody Hpre Hd.
  rewrite (item_route_put c id req st doc _ wrapper_key key_name) by done.
  rewrite (body_fields_payload _ _ Hbody).
  rewrite update_first_hit by done.
  simpl. by eexists.
Qed.

(** C4: a PUT on the id route of any collection, on a stored sequence of
    records: when some record's value under the resolved key field, taken as
    text, equals the path identifier, the first such record receives the
    fields of the request body (a field the body does not name keeps its
    value, a field it names takes the body's value), the document with that
    record is saved and the answer is 200; when no record matches, the answer
    is 404 and the files are unchanged. *)
Theorem put_merges_first_match c id req (st : store) doc entries wrapper_key :
  authorized cfg req ->
  method req = "PUT" ->
  st !! ("data/" ++ data_file c) = Some doc ->
  extract_entries doc = (entries, wrapper_key) ->
  records entries ->
  exists key_name,
    item_key_name c entries = Ok key_name
    /\ (forall p pre d post,
          body_fields req p ->
          entries = (pre ++ JDict d :: post)%list ->
          Forall (fun rec => matches key_name id rec = false) pre ->
          matches key_name id (JDict d) = true ->
          exists resp,
            item_route cfg container_repr c id req st
            = Ok (resp,
                  <["data/" ++ data_file c
                    := rewrap (pre ++ JDict (dict_merge d p) :: post)%list
                         wrapper_key]> st)
            /\ status resp = 200%Z
            /\ (forall k, dict_has k p = false ->
                          dict_lookup k (dict_merge d p) = dict_lookup k d)
            /\ (forall k v, NoDup (map fst p) -> (k, v) ∈ p ->
                            dict_lookup k (dict_merge d p) = Some v))
    /\ (Forall (fun rec => matches key_name id rec = false) entries ->
        item_route cfg container_repr c id req st
        = Ok (jsonify (error "Not found") 404, st)).
Proof.
  intros Hauth Hput Hst Hext Hrec.
  destruct (item_key_name_records c entries Hrec) as [key_name Hkey].
  exists key_name. split; [done|]. split.
  - intros p pre d post Hbody -> Hpre Hd.
    assert (records pre) as Hprec by (by apply Forall_app in Hrec as [? _]).
    destruct (put_hit c id req st doc wrapper_key key_name p pre d post)
      as (resp & Hroute & Hstatus); try done.
    exists resp. split; [done|]. split; [done|]. split.
    + intros k. apply dict_merge_preserves.
    + intros k v. apply dict_merge_overrides.
  - intros Hno.
    rewrite (item_route_put c id req st doc _ wrapper_key key_name)
      by done.
    by rewrite update_first_miss.
Qed.

Lemma delete_removes_every_match_aux c id req (st : store) doc entries
  wrapper_key key_name :
  authorized cfg req ->
  method req = "DELETE" ->
  st !! ("data/" ++ data_file c) = Some doc ->
  extract_entries doc = (entries, wrapper_key) ->
  records entries ->
  item_key_name c entries = Ok key_name ->
  let kept :=
    List.filter (fun rec => negb (matches key_name id rec)) entries in
  Forall (fun rec => matches key_name id rec = false) kept
  /\ (length kept < length entries ->
      item_route cfg container_repr c id req st
      = Ok (jsonify (message (label c ++ " deleted")) 200,
            <["data/" ++ data_file c := rewrap kept wrapper_key]> st))
  /\ (~ length kept < length entries ->
      item_route cfg container_repr c id req st
      = Ok (jsonify (error "Not found") 404, st))
  /\ (Exists (fun rec => matches key_name id rec = true) entries
      <-> length kept < length entries).
Proof.
  intros Hauth Hdel Hst Hext Hrec Hkey.
  set (keep := fun rec => negb (matches key_name id rec)). simpl.
  pose proof (List.filter_length_le keep entries) as Hle.
  rewrite (item_route_delete c id req st doc _ wrapper_key key_name)
    by done.
  rewrite remove_matching_records by done. simpl. fold keep.
  repeat split.
  - apply List.Forall_forall. intros rec Hin.
    apply List.filter_In in Hin as [_ Hk]. unfold keep in Hk.
    by apply negb_true_iff in Hk.
  - intros Hlt.
    destruct (Nat.eqb_spec (length (List.filter keep entries))
                (length entries)); [lia|done].
  - intros Hge.
    destruct (Nat.eqb_spec (length (List.filter keep entries))
                (length entries)); [done|lia].
  - intros Hex.
    destruct (Nat.eq_dec (length (List.filter keep entries))
                (length entries)) as [Heq|]; [|lia].
    apply filter_length_all in Heq.
    apply List.Exists_exists in Hex as (rec & Hin & Hm).
    rewrite List.Forall_forall in Heq. specialize (Heq rec Hin).
    unfold keep in Heq. rewrite Hm in Heq. discriminate.
  - intros Hlt. apply List.Exists_exists.
    destruct (List.existsb (matches key_name id) entries) eqn:Eex.
    + apply List.existsb_exists in Eex. exact Eex.
    + exfalso. rewrite filter_keeps_all in Hlt; [lia|].
      apply List.Forall_forall. intros rec Hin. unfold keep.
      destruct (matches key_name id rec) eqn:Em; [|done].
      assert (List.existsb (matches key_name id) entries = true)
        by (apply List.existsb_exists; eauto).
      congruence.
Qed.

(** C5: a DELETE on the id route of any collection, on a stored sequence of
    records: the records kept are exactly those whose value under the
    resolved key field, taken as text, differs from the path identifier, so
    every matching record goes; when fewer records are kept than were stored
    (that is, when some record matches) the kept records are saved and the
    answer is 200; otherwise the answer is 404 and the files are
    unchanged. *)
Theorem delete_removes_every_match c id req (st : store) doc entries
  wrapper_key :
  authorized cfg req ->
  method req = "DELETE" ->
  st !! ("data/" ++ data_file c) = Some doc ->
  extract_entries doc = (entries, wrapper_key) ->
  records entries ->
  exists key_name kept,
    item_key_name c entries = Ok key_name
    /\ kept = List.filter (fun rec => negb (matches key_name id rec)) entries
    /\ Forall (fun rec => matches key_name id rec = false) kept
    /\ (length kept < length entries ->
        item_route cfg container_repr c id req st
        = Ok (jsonify (message (label c ++ " deleted")) 200,
              <["data/" ++ data_file c := rewrap kept wrapper_key]> st))
    /\ (~ length kept < length entries ->
        item_route cfg container_repr c id req st
        = Ok (jsonify (error "Not found") 404, st))
    /\ (Exists (fun rec => matches key_name id rec = true) entries
        <-> length kept < length entries).
Proof.
  intros Hauth Hdel Hst Hext Hrec.
  destruct (item_key_name_records c entries Hrec) as [key_name Hkey].
  exists key_name. eexists. split; [done|]. split; [reflexivity|].
  by apply (delete_removes_every_match_aux c id req st doc).
Qed.

(** C10: a record without the key field reads as the text ["None"]; so on
    every collection, when some stored record lacks the resolved key field, a
    DELETE with the path identifier ["None"] answers 200 and saves a
    sequence in which every record has the key field, and a PUT with that
    identifier answers 200 and merges the body into the first record that
    reads as ["None"], instead of answering 404. *)
Theorem none_identifier_matches_keyless c req (st : store) doc entries
  wrapper_key :
  authorized cfg req ->
  st !! ("data/" ++ data_file c) = Some doc ->
  extract_entries doc = (entries, wrapper_key) ->
  records entries ->
  exists key_name,
    item_key_name c entries = Ok key_name
    /\ (forall rec, rec ∈ entries -> has_field key_name rec = false ->
                    matches key_name "None" rec = true)
    /\ (Exists (fun rec => has_field key_name rec = false) entries ->
        (method req = "DELETE" ->
         exists kept,
           item_route cfg container_repr c "None" req st
           = Ok (jsonify (message (label c ++ " deleted")) 200,
                 <["data/" ++ data_file c := rewrap kept wrapper_key]> st)
           /\ kept = List.filter
                       (fun rec => negb (matches key_name "None" rec)) entries
           /\ Forall (fun rec => has_field key_name rec = true) kept)
        /\ (method req = "PUT" ->
            forall p, body_fields req p ->
            exists resp pre d post,
              entries = (pre ++ JDict d :: post)%list
              /\ Forall (fun rec => matches key_name "None" rec = false) pre
              /\ matches key_name "None" (JDict d) = true
              /\ item_route cfg container_repr c "None" req st
                 = Ok (resp,
                       <["data/" ++ data_file c
                         := rewrap (pre ++ JDict (dict_merge d p) :: post)%list
                              wrapper_key]> st)
              /\ status resp = 200%Z)).
Proof.
  intros Hauth Hst Hext Hrec.
  destruct (item_key_name_records c entries Hrec) as [key_name Hkey].
  exists key_name. split; [done|].
  assert (Hkeyless : forall rec, rec ∈ entries ->
            has_field key_name rec = false ->
            matches key_name "None" rec = true).
  { intros rec Hin. apply keyless_matches_none.
    unfold records in Hrec. rewrite Forall_forall in Hrec. by apply Hrec. }
  split; [done|]. intros Hex.
  assert (Hmatch : Exists (fun rec => matches key_name "None" rec = true)
                     entries).
  { apply Exists_exists in Hex as (rec & Hin & Hno).
    apply Exists_exists. exists rec. split; [done|]. by apply Hkeyless. }
  split.
  - intros Hdel.
    destruct (delete_removes_every_match_aux c "None" req st doc entries
                wrapper_key key_name) as (Hkept & Hdeleted & _ & Hiff);
      try done.
    simpl in Hdeleted, Hiff.
    eexists. split; [apply Hdeleted; by apply Hiff|].
    split; [reflexivity|].
    apply Forall_forall. intros rec Hin.
    destruct (has_field key_name rec) eqn:Ef; [done|].
    apply list_elem_of_In, List.filter_In in Hin as [Hin Hk].
    apply list_elem_of_In in Hin.
    rewrite (Hkeyless rec Hin Ef) in Hk. discriminate.
  - intros Hput p Hbody.
    destruct (first_match _ _ Hmatch) as (pre & rec & post & -> & Hm & Hpre).
    assert (exists d, rec = JDict d) as [d ->].
    { unfold records in Hrec. apply Forall_app in Hrec as [_ Hrec].
      apply Forall_cons in Hrec as [Hr _].
      destruct rec; try discriminate. by eexists. }
    assert (records pre) as Hprec by (by apply Forall_app in Hrec as [? _]).
    destruct (put_hit c "None" req st doc wrapper_key key_name p pre d post)
      as (resp & Hroute & Hstatus); try done.
    by exists resp, pre, d, post.
Qed.

Lemma keyed_records_no_match key_name id entries :
  records entries ->
  field_present key_name entries = false ->
  id <> "None" ->
  Forall (fun rec => matches key_name id rec = false) entries.
Proof.
  intros Hrec Hno Hid. induction Hrec as [|rec rest Hr _ IH]; [constructor|].
  simpl in Hno. apply orb_false_iff in Hno as [Hrec Hrest].
  constructor; [|by apply IH].
  destruct rec; try discriminate.
  unfold id_matches, has_field, dict_has, dict_get in *.
  destruct (dict_lookup key_name d); [discriminate|].
  change (py_str container_repr JNull) with "None".
  apply String.eqb_neq. congruence.
Qed.

Lemma resolve_key_choice cands entries :
  records entries ->
  exists k,
    resolve_key cands entries (hd "" cands) = Ok k
    /\ (cands <> [] -> k ∈ cands)
    /\ (field_present k entries = true
        \/ forall k', k' ∈ cands -> field_present k' entries = false).
Proof.
  intros Hrec. rewrite resolve_key_records by done.
  destruct (find (fun k => field_present k entries) cands) as [k|] eqn:E;
    simpl.
  - apply List.find_some in E as [Hin Hk]. exists k.
    split; [done|]. split; [|by left]. intros _. by apply list_elem_of_In.
  - exists (hd "" cands). split; [done|]. split.
    + destruct cands; [done|]. intros _. apply list_elem_of_here.
    + right. intros k' Hk'. apply list_elem_of_In in Hk'.
      by apply (List.find_none _ _ E).
Qed.

(** C2, amended: on the id routes of contractors and conversion the key
    field is chosen per request from the candidate list of the route: it is
    a candidate, present on at least one record unless no candidate is
    present on any, and it differs between record sequences; on the id route
    of employees it is ["Worker_ID"] whatever the records hold, so that a PUT
    or DELETE there answers 404 when no record has that field and the
    identifier is not ["None"]. *)
Theorem key_field_choice :
  (forall entries, records entries ->
     (exists k, contractor_key_name entries = Ok k
                /\ k ∈ contractor_key_candidates
                /\ (field_present k entries = true
                    \/ forall k', k' ∈ contractor_key_candidates ->
                                  field_present k' entries = false))
     /\ (exists k, conversion_key_name entries = Ok k
                   /\ k ∈ conversion_key_candidates
                   /\ (field_present k entries = true
                       \/ forall k', k' ∈ conversion_key_candidates ->
                                     field_present k' entries = false)))
  /\ (exists entries1 entries2,
        records entries1 /\ records entries2
        /\ contractor_key_name entries1 <> contractor_key_name entries2
        /\ conversion_key_name entries1 <> conversion_key_name entries2)
  /\ (forall entries, item_key_name Employees entries = Ok "Worker_ID")
  /\ (forall id req (st : store) doc entries wrapper_key,
        authorized cfg req ->
        method req = "PUT" \/ method req = "DELETE" ->
        st !! "data/employees.json" = Some doc ->
        extract_entries doc = (entries, wrapper_key) ->
        records entries ->
        field_present "Worker_ID" entries = false ->
        id <> "None" ->
        item_route cfg container_repr Employees id req st
        = Ok (jsonify (error "Not found") 404, st)).
Proof.
  split; [|split; [|split]].
  - intros entries Hrec. split.
    + destruct (resolve_key_choice contractor_key_candidates entries Hrec)
        as (k & Hk & Hin & Hpresent).
      exists k. split; [exact Hk|]. split; [by apply Hin | exact Hpresent].
    + destruct (resolve_key_choice conversion_key_candidates entries Hrec)
        as (k & Hk & Hin & Hpresent).
      exists k. split; [exact Hk|]. split; [by apply Hin | exact Hpresent].
  - exists [JDict [("Worker_ID", JStr "1")]], Sample.only_employee_id.
    repeat split; try (repeat constructor); discriminate.
  - done.
  - intros id req st doc entries wrapper_key Hauth Hmethod Hst Hext Hrec
      Hno Hid.
    pose proof (keyed_records_no_match "Worker_ID" id entries Hrec Hno Hid)
      as Hnomatch.
    destruct Hmethod as [Hput | Hdel].
    + rewrite (item_route_put Employees id req st doc entries wrapper_key
                 "Worker_ID") by done.
      by rewrite update_first_miss.
    + rewrite (item_route_delete Employees id req st doc entries wrapper_key
                 "Worker_ID") by done.
      rewrite remove_matching_records by done. simpl.
      rewrite filter_keeps_all.
      * by rewrite Nat.eqb_refl.
      * eapply Forall_impl; [exact Hnomatch|].
        intros rec Hm. simpl in Hm. by rewrite Hm.
Qed.

End ItemRoutes.

(** C2, as stated, fails for the employees collection: on records that
    have ["employeeID"] and no ["Worker_ID"] the employees route still works
    with ["Worker_ID"] and answers 404 to [DELETE /employees/7], where the
    contractors route resolves to ["employeeID"] and deletes the record. *)
Lemma employees_key_is_fixed :
  field_present "Worker_ID" Sample.only_employee_id = false
  /\ field_present "employeeID" Sample.only_employee_id = true
  /\ item_key_name Employees Sample.only_employee_id = Ok "Worker_ID"
  /\ item_key_name Contractors Sample.only_employee_id = Ok "employeeID"
  /\ item_route app_config Sample.container_repr Employees "7"
       (Sample.request_with "DELETE" None)
       (Sample.files (JList Sample.only_employee_id))
     = Ok (jsonify (error "Not found") 404,
           Sample.files (JList Sample.only_employee_id))
  /\ item_route app_config Sample.container_repr Contractors "7"
       (Sample.request_with "DELETE" None)
       (Sample.files (JList Sample.only_employee_id))
     = Ok (jsonify (message "Contractor deleted") 200,
           <["data/contractors.json" := JList []]>
             (Sample.files (JList Sample.only_employee_id))).
Proof. repeat split; vm_compute; reflexivity. Qed.

Lemma key_field_choice_witness :
  item_route app_config Sample.container_repr Employees "7"
    (Sample.request_with "PUT" (Some (JDict [("IsActive", JStr "false")])))
    (Sample.files (JList Sample.only_employee_id))
  = Ok (jsonify (error "Not found") 404,
        Sample.files (JList Sample.only_employee_id)).
Proof.
  destruct (key_field_choice app_config Sample.container_repr)
    as (_ & _ & _ & Hfixed).
  apply (Hfixed "7" _ _ (JList Sample.only_employee_id)
           Sample.only_employee_id None).
  - apply sample_authorized.
  - by left.
  - reflexivity.
  - reflexivity.
  - repeat constructor.
  - reflexivity.
  - discriminate.
Defined.

Lemma put_merges_first_match_witness :
  exists resp,
    item_route app_config Sample.container_repr Employees "1"
      (Sample.request_with "PUT" (Some (JDict [("IsActive", JStr "false")])))
      (Sample.files Sample.employees_doc)
    = Ok (resp,
          <["data/employees.json"
            := JDict [("Report_Entry",
                       JList [JDict [("Worker_ID", JStr "1");
                                     ("Termination_Date", JStr "NA");
                                     ("IsActive", JStr "false")]])]]>
            (Sample.files Sample.employees_doc))
    /\ status resp = 200%Z.
Proof.
  assert (Hrec : records [Sample.worker1]) by repeat constructor.
  destruct (put_merges_first_match app_config Sample.container_repr
              Employees "1"
              (Sample.request_with "PUT"
                 (Some (JDict [("IsActive", JStr "false")])))
              (Sample.files Sample.employees_doc) Sample.employees_doc
              [Sample.worker1] (Some "Report_Entry")
              (sample_authorized _ _) eq_refl eq_refl eq_refl Hrec)
    as (key_name & Hkey & Hhit & _).
  injection Hkey as <-.
  destruct (Hhit [("IsActive", JStr "false")] []
              [("Worker_ID", JStr "1"); ("Termination_Date", JStr "NA")] []
              (or_introl eq_refl) eq_refl (List.Forall_nil _) eq_refl)
    as (resp & Hroute & Hstatus & _).
  exists resp. split; [exact Hroute | exact Hstatus].
Defined.

Lemma delete_removes_every_match_witness :
  item_route app_config Sample.container_repr Employees "1"
    (Sample.request_with "DELETE" None) (Sample.files Sample.employees_doc)
  = Ok (jsonify (message "Employee deleted") 200,
        <["data/employees.json" := JDict [("Report_Entry", JList [])]]>
          (Sample.files Sample.employees_doc)).
Proof.
  assert (Hrec : records [Sample.worker1]) by repeat constructor.
  destruct (delete_removes_every_match app_config Sample.container_repr
              Employees "1" (Sample.request_with "DELETE" None)
              (Sample.files Sample.employees_doc) Sample.employees_doc
              [Sample.worker1] (Some "Report_Entry")
              (sample_authorized _ _) eq_refl eq_refl eq_refl Hrec)
    as (key_name & kept & Hkey & -> & _ & Hdeleted & _).
  injection Hkey as <-. apply Hdeleted. simpl. lia.
Defined.

(** Two records with the same key value go in one DELETE. *)
Example delete_removes_same_keyed_records :
  item_route app_config Sample.container_repr Employees "1"
    (Sample.request_with "DELETE" None)
    (Sample.files
       (JList [Sample.worker1; JDict [("Worker_ID", JStr "2")];
               JDict [("Worker_ID", JInt 1)]]))
  = Ok (jsonify (message "Employee deleted") 200,
        <["data/employees.json" := JList [JDict [("Worker_ID", JStr "2")]]]>
          (Sample.files
             (JList [Sample.worker1; JDict [("Worker_ID", JStr "2")];
                     JDict [("Worker_ID", JInt 1)]]))).
Proof. vm_compute. reflexivity. Qed.

Lemma none_identifier_matches_keyless_witness :
  item_route app_config Sample.container_repr Employees "None"
    (Sample.request_with "DELETE" None)
    (Sample.files (JList Sample.only_employee_id))
  = Ok (jsonify (message "Employee deleted") 200,
        <["data/employees.json" := JList []]>
          (Sample.files (JList Sample.only_employee_id))).
Proof.
  assert (Hrec : records Sample.only_employee_id) by repeat constructor.
  destruct (none_identifier_matches_keyless app_config Sample.container_repr
              Employees (Sample.request_with "DELETE" None)
              (Sample.files (JList Sample.only_employee_id))
              (JList Sample.only_employee_id) Sample.only_employee_id None
              (sample_authorized _ _) eq_refl eq_refl Hrec)
    as (key_name & Hkey & _ & Hsome).
  injection Hkey as <-.
  destruct Hsome as [Hdelete _].
  { apply Exists_cons. by left. }
  destruct (Hdelete eq_refl) as (kept & Hroute & -> & _).
  exact Hroute.
Defined.
(** ** Token endpoint *)

Lemma eq_str_true x s : eq_str x s = true <-> x = JStr s.
Proof.
  destruct x as [| | | |t| |]; simpl; try (split; [discriminate|by intros ?]).
  rewrite String.eqb_eq. split; [by intros ->|by intros [= ->]].
Qed.

Lemma truthy_form_value o : truthy (form_value o) = negb (no_token o).
Proof. by destruct o. Qed.

Lemma token_answer_cases cfg cid sec gt :
  (status (token_answer cfg cid sec gt) = 200%Z <->
   cid = JStr (CLIENT_ID cfg) /\ sec = JStr (CLIENT_SECRET cfg)
   /\ gt = JStr "client_credentials")
  /\ (status (token_answer cfg cid sec gt) = 200%Z ->
      body (token_answer cfg cid sec gt) = token_grant cfg)
  /\ (cid <> JStr (CLIENT_ID cfg) \/ sec <> JStr (CLIENT_SECRET cfg) ->
      token_answer cfg cid sec gt
      = jsonify (error "Invalid client credentials") 401)
  /\ (cid = JStr (CLIENT_ID cfg) -> sec = JStr (CLIENT_SECRET cfg) ->
      gt <> JStr "client_credentials" ->
      token_answer cfg cid sec gt
      = jsonify (error "Unsupported grant type") 400).
Proof.
  unfold token_answer.
  destruct (eq_str cid (CLIENT_ID cfg)) eqn:Ec;
    destruct (eq_str sec (CLIENT_SECRET cfg)) eqn:Es;
    destruct (eq_str gt "client_credentials") eqn:Eg; simpl.
  all: repeat match goal with
         | H : eq_str _ _ = true |- _ => apply eq_str_true in H
         | H : eq_str _ _ = false |- _ =>
             apply not_true_iff_false in H; rewrite eq_str_true in H
         end.
  all: repeat split; try done; try tauto; try (intros; exfalso; tauto).
  all: try (intros (? & ? & ?); done).
Qed.

Lemma get_token_form cfg req :
  ~ form_incomplete req ->
  get_token cfg req
  = Ok (token_answer cfg (form_value (form_client_id req))
          (form_value (form_client_secret req))
          (form_value (form_grant_type req))).
Proof.
  intros H. unfold get_token. rewrite !truthy_form_value.
  unfold form_incomplete in H.
  destruct (no_token (form_client_id req)); [tauto|].
  destruct (no_token (form_client_secret req)); [tauto|].
  destruct (no_token (form_grant_type req)); [tauto|].
  simpl. unfold token_answer.
  repeat match goal with |- context [if ?b then _ else _] => destruct b end;
    reflexivity.
Qed.

Lemma get_token_json cfg req d :
  form_incomplete req ->
  json_fields req d ->
  get_token cfg req
  = Ok (token_answer cfg (effective d "client_id" (form_client_id req))
          (effective d "client_secret" (form_client_secret req))
          (effective d "grant_type" (form_grant_type req))).
Proof.
  intros Hinc Hjson. unfold get_token. rewrite !truthy_form_value.
  assert (negb (negb (no_token (form_client_id req)))
          || negb (negb (no_token (form_client_secret req)))
          || negb (negb (no_token (form_grant_type req))) = true) as ->.
  { rewrite !negb_involutive.
    destruct Hinc as [-> | [-> | ->]]; rewrite ?orb_true_r; done. }
  assert (match get_json_silent req with
          | Some j => if truthy j then j else JDict []
          | None => JDict []
          end = JDict d) as ->.
  { destruct Hjson as [-> | [-> ->]]; [|done]. by destruct d. }
  simpl. unfold token_answer, effective.
  repeat match goal with |- context [if ?b then _ else _] => destruct b end;
    reflexivity.
Qed.

(** X1: when the form carries the three fields, each non-empty, [/token]
    answers from the form alone: 200 with the configured token exactly when
    the client id, the client secret and the grant type are the configured
    ones, 401 when the id or the secret is wrong (whatever the grant type),
    400 when only the grant type is wrong; the JSON body plays no part. *)
Theorem token_from_complete_form cfg req cid sec gt :
  form_client_id req = Some cid ->
  form_client_secret req = Some sec ->
  form_grant_type req = Some gt ->
  cid <> "" -> sec <> "" -> gt <> "" ->
  exists resp,
    get_token cfg req = Ok resp
    /\ (status resp = 200%Z <->
        cid = CLIENT_ID cfg /\ sec = CLIENT_SECRET cfg
        /\ gt = "client_credentials")
    /\ (status resp = 200%Z -> body resp = token_grant cfg)
    /\ (cid <> CLIENT_ID cfg \/ sec <> CLIENT_SECRET cfg ->
        resp = jsonify (error "Invalid client credentials") 401)
    /\ (cid = CLIENT_ID cfg -> sec = CLIENT_SECRET cfg ->
        gt <> "client_credentials" ->
        resp = jsonify (error "Unsupported grant type") 400)
    /\ (forall j, get_token cfg (with_json req j) = Ok resp).
Proof.
  intros Hcid Hsec Hgt Hc Hs Hg.
  assert (Hcomplete : forall j, ~ form_incomplete (with_json req j)).
  { intros j. unfold form_incomplete. simpl. rewrite Hcid, Hsec, Hgt. simpl.
    apply String.eqb_neq in Hc, Hs, Hg. rewrite Hc, Hs, Hg.
    intros [?|[?|?]]; discriminate. }
  assert (Hself : ~ form_incomplete req) by apply (Hcomplete None).
  eexists. split; [by apply get_token_form|].
  rewrite Hcid, Hsec, Hgt. simpl form_value.
  destruct (token_answer_cases cfg (JStr cid) (JStr sec) (JStr gt))
    as (Hok & Hbody & Hbad & Hgrant).
  split; [|split; [exact Hbody|split; [|split]]].
  - rewrite Hok. split.
    + by intros ([= ->] & [= ->] & [= ->]).
    + by intros (-> & -> & ->).
  - intros [H|H]; apply Hbad; [left|right]; congruence.
  - intros -> -> H. apply Hgrant; congruence.
  - intros j. rewrite get_token_form by apply Hcomplete. simpl.
    by rewrite Hcid, Hsec, Hgt.
Qed.

(** X2: when a form field is missing or empty, [/token] turns to the JSON
    body, and every field the body has replaces the form's, also a form
    field that was right: the answer is 200 exactly when the three values so
    obtained are the configured strings; a body whose client id or secret is
    another value gives 401, and so does a client id absent from both. *)
Theorem token_from_json_body cfg req d :
  form_incomplete req ->
  json_fields req d ->
  exists resp,
    get_token cfg req = Ok resp
    /\ (status resp = 200%Z <->
        effective d "client_id" (form_client_id req) = JStr (CLIENT_ID cfg)
        /\ effective d "client_secret" (form_client_secret req)
           = JStr (CLIENT_SECRET cfg)
        /\ effective d "grant_type" (form_grant_type req)
           = JStr "client_credentials")
    /\ (status resp = 200%Z -> body resp = token_grant cfg)
    /\ (forall v, dict_lookup "client_id" d = Some v ->
                  v <> JStr (CLIENT_ID cfg) ->
                  resp = jsonify (error "Invalid client credentials") 401)
    /\ (forall v, dict_lookup "client_secret" d = Some v ->
                  v <> JStr (CLIENT_SECRET cfg) ->
                  resp = jsonify (error "Invalid client credentials") 401)
    /\ (dict_lookup "client_id" d = None -> form_client_id req = None ->
        resp = jsonify (error "Invalid client credentials") 401).
Proof.
  intros Hinc Hjson. eexists. split; [by apply get_token_json|].
  destruct (token_answer_cases cfg
              (effective d "client_id" (form_client_id req))
              (effective d "client_secret" (form_client_secret req))
              (effective d "grant_type" (form_grant_type req)))
    as (Hok & Hbody & Hbad & _).
  split; [exact Hok|]. split; [exact Hbody|]. repeat split.
  - intros v Hv Hne. apply Hbad. left. unfold effective. by rewrite Hv.
  - intros v Hv Hne. apply Hbad. right. unfold effective. by rewrite Hv.
  - intros Hnone Hform. apply Hbad. left. unfold effective.
    by rewrite Hnone, Hform.
Qed.

(** X3: when a form field is missing or empty and the JSON body is a value
    other than an object that counts as true (a list, a string, a number),
    [/token] raises [AttributeError] instead of answering. *)
Theorem token_json_not_object cfg req j :
  form_incomplete req ->
  get_json_silent req = Some j ->
  truthy j = true ->
  is_record j = false ->
  get_token cfg req = Raise AttributeError.
Proof.
  intros Hinc Hj Ht Hrec. unfold get_token. rewrite !truthy_form_value.
  assert (negb (negb (no_token (form_client_id req)))
          || negb (negb (no_token (form_client_secret req)))
          || negb (negb (no_token (form_grant_type req))) = true) as ->.
  { rewrite !negb_involutive.
    destruct Hinc as [-> | [-> | ->]]; rewrite ?orb_true_r; done. }
  rewrite Hj, Ht. by destruct j.
Qed.

Lemma get_token_answer cfg req resp :
  get_token cfg req = Ok resp ->
  exists cid sec gt, resp = token_answer cfg cid sec gt.
Proof.
  unfold get_token.
  destruct (negb (truthy (form_value (form_client_id req)))
            || negb (truthy (form_value (form_client_secret req)))
            || negb (truthy (form_value (form_grant_type req)))).
  - destruct (match get_json_silent req with
              | Some j => if truthy j then j else JDict []
              | None => JDict []
              end) as [| | | | | |d]; simpl; try discriminate.
    intros H.
    exists (effective d "client_id" (form_client_id req)),
      (effective d "client_secret" (form_client_secret req)),
      (effective d "grant_type" (form_grant_type req)).
    unfold token_answer, effective.
    repeat match goal with
           | |- context [if ?b then _ else _] => destruct b
           end; by injection H as <-.
  - simpl. intros H.
    exists (form_value (form_client_id req)),
      (form_value (form_client_secret req)),
      (form_value (form_grant_type req)).
    unfold token_answer.
    repeat match goal with
           | |- context [if ?b then _ else _] => destruct b
           end; by injection H as <-.
Qed.

Lemma request_token_returns req : exists o, request_token req = Ok o.
Proof.
  unfold request_token.
  destruct (header_token_cases req) as [(rest & _ & ->) | [_ ->]];
    by eexists.
Qed.

(** X4: the token a successful answer of [/token] carries is the configured
    one, and it opens the gate: as the [access_token] query argument of a
    request without [Authorization] header, and as the [Bearer] token of the
    header when it has no white space around it; both as soon as the
    configured token is not empty. *)
Theorem issued_token_opens_gate cfg treq resp :
  get_token cfg treq = Ok resp ->
  status resp = 200%Z ->
  issued_token resp = Some (ACCESS_TOKEN cfg)
  /\ (ACCESS_TOKEN cfg <> "" ->
      forall f req st,
        authorization req = None ->
        arg_access_token req = issued_token resp ->
        require_token cfg f req st = f req st)
  /\ (ACCESS_TOKEN cfg <> "" ->
      strip (ACCESS_TOKEN cfg) = ACCESS_TOKEN cfg ->
      forall f req st,
        authorization req = Some ("Bearer " ++ ACCESS_TOKEN cfg) ->
        require_token cfg f req st = f req st).
Proof.
  intros Htok Hstatus.
  destruct (get_token_answer _ _ _ Htok) as (cid & sec & gt & ->).
  destruct (token_answer_cases cfg cid sec gt) as (_ & Hbody & _).
  assert (Hissued : issued_token (token_answer cfg cid sec gt)
                    = Some (ACCESS_TOKEN cfg)).
  { unfold issued_token. by rewrite (Hbody Hstatus). }
  split; [exact Hissued|]. split.
  - intros Hne f req st Hauth Harg. rewrite Hissued in Harg.
    apply require_token_pass. split; [exact Hne|]. right.
    split; [|exact Harg].
    intros t [rest [Hr _]]. rewrite Hauth in Hr. discriminate.
  - intros Hne Hstrip f req st Hauth.
    apply require_token_pass. split; [exact Hne|]. left.
    exists (ACCESS_TOKEN cfg). by split.
Qed.

(** X5: the gate never raises and never touches the files: it hands the
    request to the view, or answers 401 or 403 with the files as they were;
    and with an empty configured token it never hands a request on. *)
Theorem gate_passes_or_refuses cfg f req st :
  (require_token cfg f req st = f req st
   \/ require_token cfg f req st
      = Ok (jsonify (error "Missing access token") 401, st)
   \/ require_token cfg f req st
      = Ok (jsonify (error "Invalid access token") 403, st))
  /\ (ACCESS_TOKEN cfg = "" ->
      require_token cfg f req st
      = Ok (jsonify (error "Missing access token") 401, st)
      \/ require_token cfg f req st
         = Ok (jsonify (error "Invalid access token") 403, st)).
Proof.
  unfold require_token.
  destruct (request_token_returns req) as [o ->]. simpl.
  destruct (no_token o) eqn:Eno; [split; auto|].
  destruct o as [t|]; [|discriminate]. simpl in *.
  destruct (String.eqb t (ACCESS_TOKEN cfg)) eqn:Et; simpl.
  - split; [auto|]. intros Hempty. apply String.eqb_eq in Et.
    rewrite <- Et in Hempty. apply String.eqb_neq in Eno. done.
  - split; auto.
Qed.

(** ** What the routes do to the files *)

Lemma require_token_cases cfg f req st :
  require_token cfg f req st = f req st
  \/ require_token cfg f req st
     = Ok (jsonify (error "Missing access token") 401, st)
  \/ require_token cfg f req st
     = Ok (jsonify (error "Invalid access token") 403, st).
Proof.
  unfold require_token.
  destruct (request_token_returns req) as [o ->]. simpl.
  destruct (no_token o); [auto|].
  destruct (negb (String.eqb (default "" o) (ACCESS_TOKEN cfg))); auto.
Qed.

Lemma gated_effect cfg f c req st resp st' :
  (forall resp st', f req st = Ok (resp, st') -> route_effect c st resp st') ->
  require_token cfg f req st = Ok (resp, st') ->
  route_effect c st resp st'.
Proof.
  intros Hview.
  destruct (require_token_cases cfg f req st) as [-> | [-> | ->]].
  - apply Hview.
  - intros [= <- <-]. by left.
  - intros [= <- <-]. by left.
Qed.

Ltac view_effect :=
  repeat match goal with
    | |- Ok _ = Ok _ -> _ => intros [= <- <-]
    | |- Raise _ = Ok _ -> _ => discriminate
    | |- route_effect _ ?st _ ?st => by left
    | |- context [mbind _ ?m] =>
        let E := fresh "E" in destruct m eqn:E; simpl
    | |- context [match ?x with _ => _ end] =>
        let E := fresh "E" in destruct x eqn:E; simpl
    end.

Lemma list_route_effect cfg c req st resp st' :
  list_route cfg c req st = Ok (resp, st') -> route_effect c st resp st'.
Proof.
  destruct c; simpl; apply gated_effect; clear resp st'; intros resp st'.
  all: unfold employees_handler_view, contractors_handler_view,
         conversion_handler_view, load_data.
  all: match goal with
       | |- context [?s !! ?p] =>
           destruct (s !! p) as [doc|] eqn:Hst; simpl; [|discriminate]
       end.
  all: destruct (extract_entries doc) as [entries wrapper_key] eqn:Hext.
  all: destruct (String.eqb (method req) "GET"); view_effect.
  all: right; exists doc, entries, wrapper_key; eexists;
    repeat split; try done; by right.
Qed.

Lemma item_route_effect cfg container_repr c id req st resp st' :
  item_route cfg container_repr c id req st = Ok (resp, st') ->
  route_effect c st resp st'.
Proof.
  destruct c; simpl; apply gated_effect; clear resp st'; intros resp st'.
  all: unfold employee_update_delete_view, contractor_update_delete_view,
         conversion_update_delete_view, load_data.
  all: match goal with
       | |- context [?s !! ?p] =>
           destruct (s !! p) as [doc|] eqn:Hst; simpl; [|discriminate]
       end.
  all: destruct (extract_entries doc) as [entries wrapper_key] eqn:Hext.
  all: try match goal with
       | |- context [contractor_key_name ?e] =>
           destruct (contractor_key_name e) as [key_name|]; simpl;
           [|discriminate]
       | |- context [conversion_key_name ?e] =>
           destruct (conversion_key_name e) as [key_name|]; simpl;
           [|discriminate]
       end.
  all: destruct (String.eqb (method req) "PUT").
  all: match goal with
       | |- context [update_first ?r ?k ?i ?p ?e] =>
           destruct (update_first r k i p e) as [[[entries' rec]|]|];
           simpl; try discriminate
       | |- context [remove_matching ?r ?k ?i ?e] =>
           destruct (remove_matching r k i e) as [new_entries|];
           simpl; try discriminate;
           destruct (negb (Nat.eqb (length new_entries) (length entries)))
       end.
  all: intros [= <- <-]; try (by left).
  all: right; exists doc, entries, wrapper_key; eexists;
    repeat split; try done; by left.
Qed.

Lemma extracted_wrapper_key obj :
  snd (extract_entries obj) = None
  \/ snd (extract_entries obj) = Some "Report_Entry".
Proof.
  destruct obj as [| | | | | |d]; simpl; auto.
  destruct (dict_lookup "Report_Entry" d) as [[| | | | |l|]|]; auto.
Qed.

Lemma extract_rewrap_key l wrapper_key :
  wrapper_key = None \/ wrapper_key = Some "Report_Entry" ->
  extract_entries (rewrap l wrapper_key) = (l, wrapper_key)
  /\ codec_shape (rewrap l wrapper_key).
Proof.
  intros [-> | ->]; (split; [reflexivity|]); exists l; auto.
Qed.

(** X6: what a view saves is read back as saved: for the wrapper key
    [extract_entries] found in any document, [extract_entries] applied to
    [rewrap] of any records and that key returns those records and that key,
    and the saved document is one that round-trips. *)
Theorem saved_records_are_read_back obj l :
  let wrapper_key := snd (extract_entries obj) in
  extract_entries (rewrap l wrapper_key) = (l, wrapper_key)
  /\ rewrap_extracted (rewrap l wrapper_key) = rewrap l wrapper_key.
Proof.
  simpl. destruct (extract_rewrap_key l _ (extracted_wrapper_key obj))
    as [Hext _].
  split; [exact Hext|]. unfold rewrap_extracted. by rewrite Hext.
Qed.

(** X7: a request to a route of one collection leaves every other file as
    it was, and neither creates nor removes a file. *)
Theorem routes_write_only_their_file cfg container_repr c id req (st : store)
  resp (st' : store) :
  list_route cfg c req st = Ok (resp, st')
  \/ item_route cfg container_repr c id req st = Ok (resp, st') ->
  (forall path, path <> data_path c -> st' !! path = st !! path)
  /\ dom st' = dom st.
Proof.
  intros H.
  assert (Heff : route_effect c st resp st').
  { destruct H; [by eapply list_route_effect | by eapply item_route_effect]. }
  destruct Heff as [-> | (doc & entries & wk & entries' & Hst & _ & -> & _)];
    [done|].
  split.
  - intros path Hne. by rewrite lookup_insert_ne.
  - rewrite dom_insert_L. apply elem_of_dom_2 in Hst.
    apply subseteq_union_1_L. by apply singleton_subseteq_l.
Qed.

Lemma list_route_get cfg c req (st : store) resp (st' : store) :
  method req = "GET" ->
  list_route cfg c req st = Ok (resp, st') -> st' = st.
Proof.
  intros Hget. destruct c; simpl.
  all: unfold employees_handler, contractors_handler, conversion_handler.
  all: match goal with
       | |- require_token ?cf ?f ?r ?s = _ -> _ =>
           destruct (require_token_cases cf f r s) as [-> | [-> | ->]];
           try (by intros [= ? <-])
       end.
  all: unfold employees_handler_view, contractors_handler_view,
         conversion_handler_view.
  all: destruct (load_data _ st) as [doc|]; simpl; [|discriminate].
  all: destruct (extract_entries doc) as [entries wrapper_key].
  all: rewrite Hget; simpl.
  all: try (destruct (normalize_for_saviynt cfg entries); simpl;
            [|discriminate]).
  all: by intros [= ? <-].
Qed.

(** X8: a GET on a collection route never changes the files, and no route
    changes them when its answer is not a 200 or a 201. *)
Theorem reads_and_refusals_do_not_write cfg container_repr c id req
  (st : store) resp (st' : store) :
  (list_route cfg c req st = Ok (resp, st') -> method req = "GET" ->
   st' = st)
  /\ (list_route cfg c req st = Ok (resp, st')
      \/ item_route cfg container_repr c id req st = Ok (resp, st') ->
      status resp <> 200%Z -> status resp <> 201%Z -> st' = st).
Proof.
  split.
  - intros H Hget. by eapply list_route_get.
  - intros H H200 H201.
    assert (Heff : route_effect c st resp st').
    { destruct H; [by eapply list_route_effect
                  | by eapply item_route_effect]. }
    destruct Heff as [-> | (_ & _ & _ & _ & _ & _ & _ & [?|?])]; done.
Qed.

(** X9: a route leaves the files as they were or replaces the document of
    its collection by one in the shape the codec writes (a bare list, or a
    mapping whose only field is ["Report_Entry"] and holds a list), which
    round-trips through the codec. *)
Theorem routes_save_codec_shape cfg container_repr c id req (st : store)
  resp (st' : store) :
  list_route cfg c req st = Ok (resp, st')
  \/ item_route cfg container_repr c id req st = Ok (resp, st') ->
  st' = st
  \/ exists saved,
       st' = <[data_path c := saved]> st
       /\ codec_shape saved
       /\ rewrap_extracted saved = saved.
Proof.
  intros H.
  assert (Heff : route_effect c st resp st').
  { destruct H; [by eapply list_route_effect | by eapply item_route_effect]. }
  destruct Heff as [-> | (doc & entries & wk & entries' & _ & Hext & -> & _)];
    [by left|].
  right. eexists. split; [reflexivity|].
  assert (Hwk : wk = None \/ wk = Some "Report_Entry").
  { pose proof (extracted_wrapper_key doc) as Hk. by rewrite Hext in Hk. }
  destruct (extract_rewrap_key entries' wk Hwk) as [Hread Hshape].
  split; [exact Hshape|]. unfold rewrap_extracted. by rewrite Hread.
Qed.

(** X10: when the file of the collection does not exist, every route of the
    collection raises [FileNotFoundError] for an authorized request: nothing
    is answered and no file is created, also on POST. *)
Theorem missing_file_raises cfg container_repr c id req (st : store) :
  authorized cfg req ->
  st !! data_path c = None ->
  list_route cfg c req st = Raise FileNotFoundError
  /\ item_route cfg container_repr c id req st = Raise FileNotFoundError.
Proof.
  intros Hauth Hst. unfold data_path in Hst.
  split; destruct c; simpl in *.
  all: unfold employees_handler, contractors_handler, conversion_handler,
         employee_update_delete, contractor_update_delete,
         conversion_update_delete.
  all: rewrite require_token_pass by done.
  all: unfold employees_handler_view, contractors_handler_view,
         conversion_handler_view, employee_update_delete_view,
         contractor_update_delete_view, conversion_update_delete_view,
         load_data.
  all: by rewrite Hst.
Qed.

(** ** Requests in sequence *)

Lemma list_route_post cfg c req (st : store) doc entries wrapper_key :
  authorized cfg req ->
  method req = "POST" ->
  st !! data_path c = Some doc ->
  extract_entries doc = (entries, wrapper_key) ->
  list_route cfg c req st
  = Ok (jsonify (message_data (label c ++ " added") (json_or_empty req)) 201,
        <[data_path c
          := rewrap (entries ++ [json_or_empty req])%list wrapper_key]> st).
Proof.
  intros Hauth Hpost Hst Hext. apply load_data_file in Hst.
  destruct c; simpl in *;
    unfold employees_handler, contractors_handler, conversion_handler;
    rewrite require_token_pass by done;
    unfold employees_handler_view, contractors_handler_view,
      conversion_handler_view;
    rewrite Hst; simpl; rewrite Hext, Hpost; reflexivity.
Qed.

Lemma list_route_get_view cfg c req (st : store) doc entries wrapper_key :
  authorized cfg req ->
  method req = "GET" ->
  st !! data_path c = Some doc ->
  extract_entries doc = (entries, wrapper_key) ->
  list_route cfg c req st
  = match c with
    | Conversion => Ok (jsonify (rewrap entries wrapper_key) 200, st)
    | _ => entries' ← normalize_for_saviynt cfg entries;
           Ok (jsonify (rewrap entries' wrapper_key) 200, st)
    end.
Proof.
  intros Hauth Hget Hst Hext. apply load_data_file in Hst.
  destruct c; simpl in *;
    unfold employees_handler, contractors_handler, conversion_handler;
    rewrite require_token_pass by done;
    unfold employees_handler_view, contractors_handler_view,
      conversion_handler_view;
    rewrite Hst; simpl; rewrite Hext, Hget; reflexivity.
Qed.

Lemma extracted_key doc entries wrapper_key :
  extract_entries doc = (entries, wrapper_key) ->
  wrapper_key = None \/ wrapper_key = Some "Report_Entry".
Proof.
  intros H. pose proof (extracted_wrapper_key doc) as Hk.
  by rewrite H in Hk.
Qed.

Lemma codec_shape_rewrap doc entries wrapper_key :
  codec_shape doc ->
  extract_entries doc = (entries, wrapper_key) ->
  rewrap entries wrapper_key = doc.
Proof. intros [l [-> | ->]] [= <- <-]; reflexivity. Qed.

Lemma filter_appended_match {A} (f : A -> bool) l x :
  Forall (fun y => f y = true) l -> f x = false ->
  List.filter f (l ++ [x]) = l.
Proof.
  intros Hl Hx. rewrite List.filter_app. simpl. rewrite Hx.
  rewrite filter_keeps_all by done. apply app_nil_r.
Qed.

(** X11: a POST of a record followed by a DELETE of its identifier gives
    the records back: when no stored record matches the identifier under the
    key field the id route resolves to, the POST answers 201, the DELETE
    answers 200 and the document saved holds the records stored before; the
    files are exactly as before when the document had the shape the codec
    writes. *)
Theorem post_then_delete_restores cfg container_repr c id post del
  (st : store) doc entries wrapper_key p key_name :
  authorized cfg post -> method post = "POST" ->
  get_json post = Some (JDict p) -> p <> [] ->
  authorized cfg del -> method del = "DELETE" ->
  st !! data_path c = Some doc ->
  extract_entries doc = (entries, wrapper_key) ->
  records entries ->
  item_key_name c (entries ++ [JDict p]) = Ok key_name ->
  id_matches container_repr key_name id (JDict p) = true ->
  Forall (fun rec => id_matches container_repr key_name id rec = false)
    entries ->
  exists resp1 st1 resp2 st2,
    list_route cfg c post st = Ok (resp1, st1)
    /\ status resp1 = 201%Z
    /\ item_route cfg container_repr c id del st1 = Ok (resp2, st2)
    /\ status resp2 = 200%Z
    /\ st2 = <[data_path c := rewrap entries wrapper_key]> st
    /\ (codec_shape doc -> st2 = st).
Proof.
  intros Hauth1 Hpost Hbody Hp Hauth2 Hdel Hst Hext Hrec Hkey Hnew Hold.
  pose proof (list_route_post cfg c post st doc entries wrapper_key
                Hauth1 Hpost Hst Hext) as Hroute1.
  unfold data_path in *.
  assert (Hitem : json_or_empty post = JDict p).
  { unfold json_or_empty. rewrite Hbody. by destruct p. }
  rewrite Hitem in Hroute1.
  set (st1 := <["data/" ++ data_file c
                := rewrap (entries ++ [JDict p]) wrapper_key]> st) in *.
  destruct (extract_rewrap_key (entries ++ [JDict p]) wrapper_key
              (extracted_key _ _ _ Hext)) as [Hext1 _].
  assert (Hrec1 : records (entries ++ [JDict p])).
  { apply Forall_app. split; [done|]. by repeat constructor. }
  assert (Hst1 : st1 !! ("data/" ++ data_file c)
                 = Some (rewrap (entries ++ [JDict p]) wrapper_key))
    by apply lookup_insert_eq.
  destruct (delete_removes_every_match_aux cfg container_repr c id del st1
              _ _ wrapper_key key_name Hauth2 Hdel Hst1 Hext1 Hrec1 Hkey)
    as (_ & Hdeleted & _ & _).
  simpl in Hdeleted.
  rewrite filter_appended_match in Hdeleted.
  2: { eapply Forall_impl; [exact Hold|]. intros rec Hm. simpl in Hm.
       by rewrite Hm. }
  2: { by rewrite Hnew. }
  rewrite length_app in Hdeleted. simpl in Hdeleted.
  specialize (Hdeleted ltac:(lia)).
  do 4 eexists. split; [exact Hroute1|]. split; [done|].
  split; [exact Hdeleted|]. split; [done|].
  assert (Hst2 : <["data/" ++ data_file c
                   := rewrap entries wrapper_key]> st1
                 = <["data/" ++ data_file c
                     := rewrap entries wrapper_key]> st)
    by apply insert_insert_eq.
  split; [exact Hst2|].
  intros Hshape. rewrite Hst2.
  rewrite (codec_shape_rewrap _ _ _ Hshape Hext). by apply insert_id.
Qed.

(** X12: a GET that follows a POST returns the record appended: on
    conversion the stored records followed by the new one, on employees and
    contractors (stored records and a new record that are JSON objects) the
    same sequence as the normalizer shapes it. *)
Theorem post_then_get_returns_record cfg c post get (st : store) doc entries
  wrapper_key :
  authorized cfg post -> method post = "POST" ->
  authorized cfg get -> method get = "GET" ->
  st !! data_path c = Some doc ->
  extract_entries doc = (entries, wrapper_key) ->
  exists resp1 st1 new_item,
    list_route cfg c post st = Ok (resp1, st1)
    /\ body resp1 = message_data (label c ++ " added") new_item
    /\ (c = Conversion ->
        list_route cfg c get st1
        = Ok (jsonify (rewrap (entries ++ [new_item])%list wrapper_key) 200,
              st1))
    /\ (c <> Conversion -> records entries -> is_record new_item = true ->
        list_route cfg c get st1
        = Ok (jsonify
                (rewrap (map (shape cfg) (entries ++ [new_item])%list)
                   wrapper_key) 200,
              st1)).
Proof.
  intros Hauth1 Hpost Hauth2 Hget Hst Hext.
  pose proof (list_route_post cfg c post st doc entries wrapper_key
                Hauth1 Hpost Hst Hext) as Hroute1.
  set (new_item := json_or_empty post) in *.
  set (st1 := <[data_path c
                := rewrap (entries ++ [new_item]) wrapper_key]> st) in *.
  destruct (extract_rewrap_key (entries ++ [new_item]) wrapper_key
              (extracted_key _ _ _ Hext)) as [Hext1 _].
  assert (Hst1 : st1 !! data_path c
                 = Some (rewrap (entries ++ [new_item]) wrapper_key))
    by apply lookup_insert_eq.
  pose proof (list_route_get_view cfg c get st1 _ _ wrapper_key
                Hauth2 Hget Hst1 Hext1) as Hroute2.
  exists (jsonify (message_data (label c ++ " added") new_item) 201),
    st1, new_item.
  split; [exact Hroute1|]. split; [done|]. split.
  - intros ->. exact Hroute2.
  - intros Hc Hrec Hnew. rewrite Hroute2.
    rewrite normalize_records.
    + by destruct c.
    + apply Forall_app. split; [done|]. by repeat constructor.
Qed.

Lemma dict_merge_again d p :
  distinct_fields p -> dict_merge (dict_merge d p) p = dict_merge d p.
Proof.
  intros Hnd.
  assert (Hall : forall k v, (k, v) ∈ p ->
            dict_lookup k (dict_merge d p) = Some v).
  { intros k v. by apply dict_merge_overrides. }
  revert Hall. generalize (dict_merge d p) as d'. clear Hnd.
  unfold dict_merge. induction p as [|[k v] p IH]; intros d' Hall; simpl.
  - done.
  - rewrite dict_set_same by (apply Hall, list_elem_of_here).
    apply IH. intros k' v' Hin. by apply Hall, list_elem_of_further.
Qed.

Lemma find_agree {A} (f g : A -> bool) l :
  (forall x, x ∈ l -> f x = g x) -> find f l = find g l.
Proof.
  induction l as [|x l IH]; intros H; simpl; [done|].
  rewrite <- (H x) by apply list_elem_of_here.
  destruct (f x); [done|]. apply IH. intros y Hy.
  by apply H, list_elem_of_further.
Qed.

Lemma item_key_name_agree c entries entries' :
  records entries -> records entries' ->
  (forall k, k ∈ key_fields ->
             field_present k entries' = field_present k entries) ->
  item_key_name c entries' = item_key_name c entries.
Proof.
  intros Hrec Hrec' Hsame. destruct c; simpl; [done| |].
  - unfold contractor_key_name. rewrite !resolve_key_records by done.
    f_equal. f_equal. apply find_agree. intros k Hk. apply Hsame.
    unfold contractor_key_candidates, key_fields in *. exact Hk.
  - unfold conversion_key_name. rewrite !resolve_key_records by done.
    f_equal. f_equal. apply find_agree. intros k Hk. apply Hsame.
    unfold conversion_key_candidates, key_fields in *.
    repeat (apply elem_of_cons in Hk as [-> | Hk];
            [repeat constructor|]).
    by apply elem_of_nil in Hk.
Qed.

Lemma item_key_name_is_key_field c entries key_name :
  records entries -> item_key_name c entries = Ok key_name ->
  key_name ∈ key_fields.
Proof.
  intros Hrec. destruct c; simpl.
  - intros [= <-]. unfold key_fields, employee_key_name.
    repeat constructor.
  - unfold contractor_key_name.
    destruct (resolve_key_choice contractor_key_candidates entries Hrec)
      as (k & Hk & Hin & _).
    change (hd "" contractor_key_candidates) with "employeeID" in Hk.
    rewrite Hk. intros [= <-]. by apply Hin.
  - unfold conversion_key_name.
    destruct (resolve_key_choice conversion_key_candidates entries Hrec)
      as (k & Hk & Hin & _).
    change (hd "" conversion_key_candidates) with "contractorID" in Hk.
    rewrite Hk. intros [= <-].
    specialize (Hin ltac:(done)). unfold conversion_key_candidates in Hin.
    unfold key_fields.
    repeat (apply elem_of_cons in Hin as [-> | Hin];
            [repeat constructor|]).
    by apply elem_of_nil in Hin.
Qed.

Lemma merged_has_field d p k :
  dict_has k p = false ->
  has_field k (JDict (dict_merge d p)) = has_field k (JDict d).
Proof.
  intros H. simpl. unfold dict_has. by rewrite dict_merge_preserves.
Qed.

Lemma merged_id_matches container_repr d p key_name id :
  dict_has key_name p = false ->
  id_matches container_repr key_name id (JDict (dict_merge d p))
  = id_matches container_repr key_name id (JDict d).
Proof.
  intros H. simpl. unfold dict_get. by rewrite dict_merge_preserves.
Qed.

Lemma field_present_app k l1 l2 :
  field_present k (l1 ++ l2) = field_present k l1 || field_present k l2.
Proof. apply List.existsb_app. Qed.

Lemma field_present_cons k rec l :
  field_present k (rec :: l) = has_field k rec || field_present k l.
Proof. reflexivity. Qed.

(** X13: a PUT is idempotent when its body names none of the key fields:
    on a stored sequence of records, repeating the request on the files it
    left gives the same answer and leaves the files unchanged. *)
Theorem put_twice_is_put_once cfg container_repr c id req (st : store) doc
  entries wrapper_key p resp (st1 : store) :
  authorized cfg req -> method req = "PUT" ->
  body_fields req p -> distinct_fields p ->
  (forall k, k ∈ key_fields -> dict_has k p = false) ->
  st !! data_path c = Some doc ->
  extract_entries doc = (entries, wrapper_key) ->
  records entries ->
  item_route cfg container_repr c id req st = Ok (resp, st1) ->
  item_route cfg container_repr c id req st1 = Ok (resp, st1).
Proof.
  intros Hauth Hput Hbody Hnd Hnokey Hst Hext Hrec Hfirst.
  unfold data_path in *.
  destruct (item_key_name_records c entries Hrec) as [key_name Hkey].
  pose proof (item_key_name_is_key_field c entries key_name Hrec Hkey)
    as Hkf.
  pose proof (body_fields_payload _ _ Hbody) as Hpayload.
  rewrite (item_route_put cfg container_repr c id req st doc entries
             wrapper_key key_name) in Hfirst by done.
  rewrite Hpayload in Hfirst.
  destruct (List.existsb (id_matches container_repr key_name id) entries)
    eqn:Eex.
  - assert (Hex : Exists (fun rec => id_matches container_repr key_name id rec
                                     = true) entries).
    { apply List.Exists_exists. by apply List.existsb_exists in Eex. }
    destruct (first_match _ _ Hex) as (pre & rec & post & -> & Hm & Hpre).
    assert (Hrecs : records pre /\ is_record rec = true /\ records post).
    { unfold records in Hrec. apply Forall_app in Hrec as [? Hrec].
      by apply Forall_cons in Hrec as [? ?]. }
    destruct Hrecs as (Hrpre & Hrrec & Hrpost).
    destruct rec as [| | | | | |d]; try discriminate.
    rewrite update_first_hit in Hfirst by done. simpl in Hfirst.
    injection Hfirst as <- <-.
    set (entries1 := (pre ++ JDict (dict_merge d p) :: post)%list).
    set (st1 := <["data/" ++ data_file c := rewrap entries1 wrapper_key]> st).
    destruct (extract_rewrap_key entries1 wrapper_key
                (extracted_key _ _ _ Hext)) as [Hext1 _].
    assert (Hrec1 : records entries1).
    { apply Forall_app. split; [done|]. by constructor. }
    assert (Hkey1 : item_key_name c entries1 = Ok key_name).
    { rewrite <- Hkey. apply item_key_name_agree; try done.
      intros k Hk. unfold entries1.
      rewrite !field_present_app, !field_present_cons.
      by rewrite (merged_has_field d p k (Hnokey k Hk)). }
    assert (Hst1 : st1 !! ("data/" ++ data_file c)
                   = Some (rewrap entries1 wrapper_key))
      by apply lookup_insert_eq.
    rewrite (item_route_put cfg container_repr c id req st1 _ entries1
               wrapper_key key_name) by done.
    rewrite Hpayload. unfold entries1.
    rewrite update_first_hit; try done.
    2: { rewrite merged_id_matches; [done|]. by apply Hnokey. }
    simpl. rewrite dict_merge_again by done.
    unfold st1, entries1. by rewrite insert_insert_eq.
  - assert (Hno : Forall (fun rec => id_matches container_repr key_name id rec
                                     = false) entries).
    { apply List.Forall_forall. intros rec Hin.
      destruct (id_matches container_repr key_name id rec) eqn:Em; [|done].
      assert (List.existsb (id_matches container_repr key_name id) entries
              = true) by (apply List.existsb_exists; eauto).
      congruence. }
    rewrite update_first_miss in Hfirst by done. simpl in Hfirst.
    injection Hfirst as <- <-.
    rewrite (item_route_put cfg container_repr c id req st doc entries
               wrapper_key key_name) by done.
    by rewrite update_first_miss.
Qed.

Lemma records_filter f entries :
  records entries -> records (List.filter f entries).
Proof.
  unfold records. rewrite !List.Forall_forall.
  intros H rec Hin. apply List.filter_In in Hin as [Hin _]. by apply H.
Qed.

(** X14: a DELETE repeated finds nothing: when the key field the id route
    resolves to is the same after the deletion, the second DELETE of the
    identifier answers 404 and leaves the files as the first left them. *)
Theorem delete_twice_not_found cfg container_repr c id req (st : store) doc
  entries wrapper_key key_name resp (st1 : store) :
  authorized cfg req -> method req = "DELETE" ->
  st !! data_path c = Some doc ->
  extract_entries doc = (entries, wrapper_key) ->
  records entries ->
  item_key_name c entries = Ok key_name ->
  item_key_name c
    (List.filter (fun rec => negb (id_matches container_repr key_name id rec))
       entries) = Ok key_name ->
  item_route cfg container_repr c id req st = Ok (resp, st1) ->
  item_route cfg container_repr c id req st1
  = Ok (jsonify (error "Not found") 404, st1).
Proof.
  intros Hauth Hdel Hst Hext Hrec Hkey Hkey1 Hfirst. unfold data_path in *.
  destruct (delete_removes_every_match_aux cfg container_repr c id req st doc
              entries wrapper_key key_name Hauth Hdel Hst Hext Hrec Hkey)
    as (Hkept & Hdeleted & Hmissing & _).
  simpl in *.
  set (kept := List.filter
                 (fun rec => negb (id_matches container_repr key_name id rec))
                 entries) in *.
  destruct (Nat.lt_ge_cases (length kept) (length entries)) as [Hlt | Hge].
  - rewrite (Hdeleted Hlt) in Hfirst. injection Hfirst as <- <-.
    set (st1 := <["data/" ++ data_file c := rewrap kept wrapper_key]> st).
    destruct (extract_rewrap_key kept wrapper_key (extracted_key _ _ _ Hext))
      as [Hext1 _].
    assert (Hst1 : st1 !! ("data/" ++ data_file c)
                   = Some (rewrap kept wrapper_key))
      by apply lookup_insert_eq.
    destruct (delete_removes_every_match_aux cfg container_repr c id req st1
                _ kept wrapper_key key_name Hauth Hdel Hst1 Hext1
                (records_filter _ _ Hrec) Hkey1)
      as (_ & _ & Hmissing1 & _).
    apply Hmissing1. simpl. rewrite filter_keeps_all; [lia|].
    eapply Forall_impl; [exact Hkept|]. intros rec Hm. simpl in Hm.
    by rewrite Hm.
  - rewrite Hmissing in Hfirst by lia. injection Hfirst as <- <-.
    apply Hmissing. lia.
Qed.

(** When the deletion changes the key the contractors route resolves to, a
    second DELETE of the same identifier can find another record. *)
Example second_delete_under_another_key :
  let entries := [JDict [("employeeID", JStr "5")];
                  JDict [("Worker_ID", JStr "5")]] in
  let req := Sample.request_with "DELETE" None in
  match item_route app_config Sample.container_repr Contractors "5" req
          (Sample.files (JList entries)) with
  | Ok (resp1, st1) =>
      status resp1 = 200%Z
      /\ st1 !! "data/contractors.json"
         = Some (JList [JDict [("Worker_ID", JStr "5")]])
      /\ match item_route app_config Sample.container_repr Contractors "5"
                 req st1 with
         | Ok (resp2, st2) =>
             status resp2 = 200%Z
             /\ st2 !! "data/contractors.json" = Some (JList [])
         | Raise _ => False
         end
  | Raise _ => False
  end.
Proof. vm_compute. repeat split. Qed.

(** ** Records under update and normalization *)

Lemma dict_has_elem_of k d : dict_has k d = true <-> k ∈ map fst d.
Proof.
  unfold dict_has. induction d as [|[k' v] d IH]; simpl.
  - split; [discriminate|]. by intros ?%elem_of_nil.
  - destruct (String.eqb k k') eqn:E.
    + apply String.eqb_eq in E as ->. split; [|done].
      intros _. apply list_elem_of_here.
    + apply String.eqb_neq in E. rewrite IH, elem_of_cons.
      split; [by right | by intros [?|?]].
Qed.

Lemma dict_set_fields k v d :
  map fst (dict_set k v d)
  = if dict_has k d then map fst d else (map fst d ++ [k])%list.
Proof.
  unfold dict_has. induction d as [|[k' v'] d IH]; simpl; [done|].
  destruct (String.eqb k k') eqn:E; simpl; [done|].
  rewrite IH. by destruct (dict_lookup k d).
Qed.

Lemma dict_set_distinct k v d :
  distinct_fields d -> distinct_fields (dict_set k v d).
Proof.
  unfold distinct_fields. intros Hnd. rewrite dict_set_fields.
  destruct (dict_has k d) eqn:E; [done|].
  apply NoDup_app. split; [done|]. split; [|apply NoDup_singleton].
  intros k' Hin ->%list_elem_of_singleton.
  apply dict_has_elem_of in Hin. congruence.
Qed.

Lemma dict_merge_fields d p :
  exists added,
    map fst (dict_merge d p) = (map fst d ++ added)%list
    /\ (forall k, k ∈ added -> dict_has k d = false /\ dict_has k p = true)
    /\ (distinct_fields d -> distinct_fields (dict_merge d p)).
Proof.
  unfold dict_merge. revert d.
  induction p as [|[k v] p IH]; intros d; simpl.
  - exists []. rewrite app_nil_r. split; [done|]. split; [|done].
    by intros k ?%elem_of_nil.
  - destruct (IH (dict_set k v d)) as (added & Hfields & Hadded & Hnd).
    rewrite dict_set_fields in Hfields.
    assert (Hstep : forall k', k' ∈ added ->
              dict_has k' d = false /\ dict_has k' ((k, v) :: p) = true).
    { intros k' Hin. destruct (Hadded k' Hin) as [Hset Hp].
      rewrite dict_has_set in Hset. apply orb_false_iff in Hset as [_ Hd].
      split; [exact Hd|]. unfold dict_has in *. simpl.
      by destruct (String.eqb k' k). }
    destruct (dict_has k d) eqn:E.
    + exists added. split; [done|]. split; [done|].
      intros Hd. by apply Hnd, dict_set_distinct.
    + exists (k :: added). rewrite <- app_assoc in Hfields.
      split; [done|]. split.
      * intros k' [-> | Hin]%elem_of_cons; [|by apply Hstep].
        split; [done|]. unfold dict_has. simpl. by rewrite String.eqb_refl.
      * intros Hd. by apply Hnd, dict_set_distinct.
Qed.

(** X15: [rec.update(payload)] with an object payload takes no field away
    and keeps the order of the fields: the fields of the updated record are
    those of the record, in their order, followed by fields of the payload
    the record did not have; field names stay distinct. *)
Theorem update_keeps_fields d p :
  exists d' added,
    py_update (JDict d) (JDict p) = Ok (JDict d')
    /\ map fst d' = (map fst d ++ added)%list
    /\ (forall k, k ∈ added -> dict_has k d = false /\ dict_has k p = true)
    /\ (forall k, dict_has k d = true -> dict_has k d' = true)
    /\ (distinct_fields d -> distinct_fields d').
Proof.
  destruct (dict_merge_fields d p) as (added & Hfields & Hadded & Hnd).
  exists (dict_merge d p), added. split; [done|]. split; [done|].
  split; [done|]. split; [|done].
  intros k Hk. apply dict_has_elem_of. rewrite Hfields.
  apply elem_of_app. left. by apply dict_has_elem_of.
Qed.

Lemma shape_record_filled cfg d :
  filled_from cfg (JDict d) (JDict (shape_record cfg d)).
Proof.
  split; [discriminate|]. intros d0 [= <-].
  exists (shape_record cfg d). split; [done|].
  assert (Hne : "Termination_Date" <> "IsActive") by discriminate.
  assert (Hne' : "IsActive" <> "Termination_Date") by discriminate.
  unfold shape_record.
  set (d1 := if AUTO_CLEAN_TERMINATION_DATE cfg
                && none_or_str "NA" (dict_get "Termination_Date" d)
             then dict_set "Termination_Date" (JStr "") d else d).
  set (fill := AUTO_ENSURE_ISACTIVE cfg
               && (negb (dict_has "IsActive" d1)
                   || none_or_str "" (dict_get "IsActive" d1))).
  assert (H1has : forall k, dict_has k d = true -> dict_has k d1 = true).
  { intros k Hk. unfold d1. destruct (_ && _); [|done].
    rewrite dict_has_set, Hk. apply orb_true_r. }
  assert (H1other : forall k, k <> "Termination_Date" ->
            dict_lookup k d1 = dict_lookup k d).
  { intros k Hk. unfold d1. destruct (_ && _); [|done].
    apply dict_lookup_set_ne. congruence. }
  assert (H1off : AUTO_CLEAN_TERMINATION_DATE cfg = false -> d1 = d).
  { intros Hoff. unfold d1. by rewrite Hoff. }
  assert (H1nd : distinct_fields d -> distinct_fields d1).
  { intros Hd. unfold d1. destruct (_ && _); [|done].
    by apply dict_set_distinct. }
  repeat split.
  - intros k Hk. destruct fill; [|by apply H1has].
    rewrite dict_has_set, (H1has k Hk). apply orb_true_r.
  - intros k Hk1 Hk2. destruct fill; [|by apply H1other].
    rewrite dict_lookup_set_ne by congruence. by apply H1other.
  - intros Hoff. rewrite (H1off Hoff). destruct fill; [|done].
    by apply dict_lookup_set_ne.
  - intros Hoff. unfold fill. rewrite Hoff. simpl. by apply H1other.
  - intros Hd. destruct fill; [|by apply H1nd].
    by apply dict_set_distinct, H1nd.
Qed.

Lemma normalize_record_non_record cfg rec rec' :
  is_record rec = false ->
  normalize_record cfg rec = Ok rec' ->
  rec' = rec
  /\ AUTO_CLEAN_TERMINATION_DATE cfg = false
  /\ AUTO_ENSURE_ISACTIVE cfg = false.
Proof.
  intros Hrec. unfold normalize_record.
  destruct rec as [| | | | | |d]; try discriminate.
  all: destruct (AUTO_CLEAN_TERMINATION_DATE cfg),
         (AUTO_ENSURE_ISACTIVE cfg); simpl; try discriminate.
  all: try (by intros [= <-]).
  all: match goal with
       | |- context [if negb ?b then _ else _] => destruct b; simpl
       end; discriminate.
Qed.

Lemma normalize_record_filled cfg rec rec' :
  normalize_record cfg rec = Ok rec' -> filled_from cfg rec rec'.
Proof.
  destruct (is_record rec) eqn:Hrec.
  - destruct rec; try discriminate.
    rewrite normalize_record_dict. intros [= <-].
    apply shape_record_filled.
  - intros H. destruct (normalize_record_non_record _ _ _ Hrec H)
      as (-> & _ & _).
    split; [done|]. intros d ->. discriminate.
Qed.

(** X16: the normalizer only fills: when it returns, it returns as many
    records as it was given, each with every field it had, the same value
    under every field other than [Termination_Date] and [IsActive], the same
    value under each of these two when its toggle is off, and distinct field
    names still; with both toggles off it returns what it was given. *)
Theorem normalizer_only_fills cfg entries entries' :
  normalize_for_saviynt cfg entries = Ok entries' ->
  Forall2 (filled_from cfg) entries entries'
  /\ length entries' = length entries
  /\ (AUTO_CLEAN_TERMINATION_DATE cfg = false ->
      AUTO_ENSURE_ISACTIVE cfg = false -> entries' = entries).
Proof.
  revert entries'. induction entries as [|rec rest IH]; simpl; intros entries'.
  - intros [= <-]. repeat split. constructor.
  - destruct (normalize_record cfg rec) as [rec'|] eqn:Erec; simpl;
      [|discriminate].
    destruct (normalize_for_saviynt cfg rest) as [rest'|] eqn:Erest; simpl;
      [|discriminate].
    intros [= <-]. destruct (IH rest' eq_refl) as (Hall & Hlen & Hoff).
    repeat split.
    + constructor; [by apply normalize_record_filled | exact Hall].
    + simpl. by rewrite Hlen.
    + intros Hclean Hensure. rewrite (Hoff Hclean Hensure). f_equal.
      unfold normalize_record in Erec. rewrite Hclean, Hensure in Erec.
      by injection Erec.
Qed.

(** ** Edge cases of the stored data and of the payload *)

Lemma normalize_raises cfg entries :
  AUTO_CLEAN_TERMINATION_DATE cfg = true \/ AUTO_ENSURE_ISACTIVE cfg = true ->
  Exists (fun rec => is_record rec = false) entries ->
  exists e, normalize_for_saviynt cfg entries = Raise e.
Proof.
  intros Hon. induction 1 as [rec rest Hrec | rec rest _ IH]; simpl.
  - destruct (normalize_record cfg rec) as [rec'|e] eqn:E; simpl;
      [|by eexists].
    destruct (normalize_record_non_record _ _ _ Hrec E) as (_ & Hc & He).
    destruct Hon; congruence.
  - destruct (normalize_record cfg rec); simpl; [|by eexists].
    destruct IH as [e ->]. by eexists.
Qed.

Lemma remove_matching_raises container_repr key_name id entries :
  Exists (fun rec => is_record rec = false) entries ->
  remove_matching container_repr key_name id entries = Raise AttributeError.
Proof.
  induction 1 as [rec rest Hrec | rec rest _ IH]; simpl.
  - by destruct rec.
  - rewrite IH. destruct rec; simpl; reflexivity.
Qed.

(** X17: an entry that is no JSON object breaks the routes that look into
    the records: a GET of employees or contractors raises as soon as one
    toggle is on, and a DELETE on any id route raises, whatever the
    identifier; a GET of conversion still returns the stored records. *)
Theorem non_record_entry_breaks_routes cfg container_repr c id req
  (st : store) doc entries wrapper_key :
  authorized cfg req ->
  st !! data_path c = Some doc ->
  extract_entries doc = (entries, wrapper_key) ->
  Exists (fun rec => is_record rec = false) entries ->
  (method req = "GET" -> c <> Conversion ->
   AUTO_CLEAN_TERMINATION_DATE cfg = true
   \/ AUTO_ENSURE_ISACTIVE cfg = true ->
   exists e, list_route cfg c req st = Raise e)
  /\ (method req = "GET" -> c = Conversion ->
      list_route cfg c req st
      = Ok (jsonify (rewrap entries wrapper_key) 200, st))
  /\ (method req = "DELETE" ->
      exists e, item_route cfg container_repr c id req st = Raise e).
Proof.
  intros Hauth Hst Hext Hbad. repeat split.
  - intros Hget Hc Hon.
    rewrite (list_route_get_view cfg c req st doc entries wrapper_key)
      by done.
    destruct (normalize_raises cfg entries Hon Hbad) as [e He].
    exists e. destruct c; [| |done]; by rewrite He.
  - intros Hget ->.
    by rewrite (list_route_get_view cfg Conversion req st doc entries
                  wrapper_key).
  - intros Hdel. unfold data_path in Hst. apply load_data_file in Hst.
    destruct c; simpl in *.
    all: unfold employee_update_delete, contractor_update_delete,
           conversion_update_delete.
    all: rewrite require_token_pass by done.
    all: unfold employee_update_delete_view, contractor_update_delete_view,
           conversion_update_delete_view.
    all: rewrite Hst; simpl; rewrite Hext; simpl.
    all: try match goal with
           | |- context [contractor_key_name ?e] =>
               destruct (contractor_key_name e); simpl; [|by eexists]
           | |- context [conversion_key_name ?e] =>
               destruct (conversion_key_name e); simpl; [|by eexists]
           end.
    all: rewrite Hdel; simpl.
    all: rewrite remove_matching_raises by done; by eexists.
Qed.

Lemma mem_set_in_memory k v d :
  mem_set (JStr k) v (in_memory d) = in_memory (dict_set k v d).
Proof.
  induction d as [|[k' v'] d IH]; simpl; [done|].
  destruct (String.eqb k k'); simpl; [done|]. by rewrite IH.
Qed.

Lemma read_back_in_memory d acc :
  read_back (in_memory d) [] acc = (acc ++ d)%list.
Proof.
  revert acc. induction d as [|[k v] d IH]; intros acc; simpl.
  - by rewrite app_nil_r.
  - rewrite IH. by rewrite <- app_assoc.
Qed.

Lemma update_pairs_as_pairs d p :
  update_pairs (in_memory d)
    (map (fun kv => JList [JStr (fst kv); snd kv]) p)
  = Ok (in_memory (dict_merge d p)).
Proof.
  unfold dict_merge. revert d.
  induction p as [|[k v] p IH]; intros d; simpl; [done|].
  rewrite mem_set_in_memory. apply IH.
Qed.

(** Keys that are no strings: [1] and [True] are one key, written as the
    first of them; a key written as a text the record has as a field gives
    its value to that field when it comes later in the dict. *)
Example update_by_pairs_other_keys :
  py_update (JDict [("1", JStr "x")])
    (JList [JList [JInt 1; JStr "a"]; JList [JStr "1"; JStr "b"]])
  = Ok (JDict [("1", JStr "a")])
  /\ py_update (JDict [])
       (JList [JList [JInt 1; JStr "a"]; JList [JBool true; JStr "b"];
               JList [JNull; JStr "c"]; JList [JFloat "2.0"; JStr "d"];
               JList [JInt 2; JStr "e"]])
     = Ok (JDict [("1", JStr "b"); ("null", JStr "c"); ("2.0", JStr "e")])
  /\ py_update (JDict []) (JList [JList [JList []; JStr "a"]])
     = Raise TypeError.
Proof. repeat split. Qed.

Lemma py_update_scalar d payload :
  scalar_payload payload = true ->
  exists e, py_update (JDict d) payload = Raise e.
Proof.
  destruct payload as [| | | |s| |]; simpl; try discriminate;
    try (by eexists).
  destruct s; [discriminate|]. by eexists.
Qed.

Lemma update_first_hit_raises container_repr key_name id payload pre d post
  e :
  records pre ->
  Forall (fun rec => id_matches container_repr key_name id rec = false) pre ->
  id_matches container_repr key_name id (JDict d) = true ->
  py_update (JDict d) payload = Raise e ->
  update_first container_repr key_name id payload
    (pre ++ JDict d :: post)%list = Raise e.
Proof.
  intros Hrec Hpre Hm He.
  induction Hrec as [|rec0 pre Hr0 _ IH]; simpl.
  - simpl in Hm, He. by rewrite Hm, He.
  - apply Forall_cons in Hpre as [Hm0 Hpre].
    destruct rec0; try discriminate. simpl in Hm0. simpl.
    rewrite Hm0. simpl. by rewrite (IH Hpre).
Qed.

(** X18: a PUT whose body is a non-empty string, a non-zero number or
    [true] never saves: it raises when a record matches the identifier and
    answers 404 when none does. A body that is the list of the
    [[key, value]] pairs of an object updates a record as that object
    does. *)
Theorem put_body_that_is_no_object cfg container_repr c id req (st : store)
  doc entries wrapper_key key_name payload :
  authorized cfg req -> method req = "PUT" ->
  get_json req = Some payload ->
  scalar_payload payload = true ->
  st !! data_path c = Some doc ->
  extract_entries doc = (entries, wrapper_key) ->
  records entries ->
  item_key_name c entries = Ok key_name ->
  (Exists (fun rec => id_matches container_repr key_name id rec = true)
     entries ->
   exists e, item_route cfg container_repr c id req st = Raise e)
  /\ (Forall (fun rec => id_matches container_repr key_name id rec = false)
        entries ->
      item_route cfg container_repr c id req st
      = Ok (jsonify (error "Not found") 404, st))
  /\ (forall d p, py_update (JDict d) (as_pairs p)
                  = py_update (JDict d) (JDict p)).
Proof.
  intros Hauth Hput Hbody Hscalar Hst Hext Hrec Hkey.
  unfold data_path in Hst.
  rewrite (item_route_put cfg container_repr c id req st doc entries
             wrapper_key key_name) by done.
  assert (Hpayload : json_or_empty req = payload).
  { unfold json_or_empty. rewrite Hbody.
    assert (truthy payload = true) as ->; [|done].
    by destruct payload. }
  rewrite Hpayload. repeat split.
  - intros Hex.
    destruct (first_match _ _ Hex) as (pre & rec & post & -> & Hm & Hpre).
    assert (Hrecs : records pre /\ is_record rec = true).
    { unfold records in Hrec. apply Forall_app in Hrec as [? Hrec].
      by apply Forall_cons in Hrec as [? ?]. }
    destruct Hrecs as [Hrpre Hrrec].
    destruct rec as [| | | | | |d]; try discriminate.
    destruct (py_update_scalar d payload Hscalar) as [e He].
    exists e. by rewrite (update_first_hit_raises _ _ _ _ _ _ _ e).
  - intros Hno. by rewrite update_first_miss.
  - intros d p. unfold as_pairs. simpl.
    rewrite update_pairs_as_pairs. simpl.
    by rewrite read_back_in_memory.
Qed.

Lemma field_present_permutation k entries entries' :
  Permutation entries entries' ->
  field_present k entries' = field_present k entries.
Proof.
  unfold field_present.
  induction 1 as [|rec l l' _ IH|rec1 rec2 l|l1 l2 l3 _ IH1 _ IH2]; simpl.
  - done.
  - by rewrite IH.
  - destruct (has_field k rec1), (has_field k rec2); reflexivity.
  - by rewrite IH2.
Qed.

Lemma records_permutation entries entries' :
  Permutation entries entries' -> records entries -> records entries'.
Proof.
  unfold records. rewrite !List.Forall_forall. intros Hp H rec Hin.
  apply H. eapply Permutation_in; [symmetry; exact Hp | exact Hin].
Qed.

(** X19: the key field an id route resolves to depends only on which of the
    three key fields are present in some record: it is the same for two
    sequences of records that agree on that, in particular when one is a
    permutation of the other. *)
Theorem key_depends_on_fields_present c entries entries' :
  records entries ->
  (Permutation entries entries' ->
   item_key_name c entries' = item_key_name c entries)
  /\ (records entries' ->
      (forall k, k ∈ key_fields ->
                 field_present k entries' = field_present k entries) ->
      item_key_name c entries' = item_key_name c entries).
Proof.
  intros Hrec. split.
  - intros Hp. apply item_key_name_agree; [done| |].
    + by eapply records_permutation.
    + intros k _. by apply field_present_permutation.
  - intros Hrec' Hsame. by apply item_key_name_agree.
Qed.

(** X20: a stored document that is neither a list nor a mapping with a list
    under ["Report_Entry"] counts as an empty collection: GET returns the
    empty list, PUT and DELETE answer 404, and a POST replaces the whole
    document by a bare list that holds the new record only. *)
Theorem unrecognised_document_reads_empty cfg container_repr c id req
  (st : store) doc :
  authorized cfg req ->
  st !! data_path c = Some doc ->
  is_list doc = false ->
  wrapper_holds_list doc = false ->
  (method req = "GET" ->
   list_route cfg c req st = Ok (jsonify (JList []) 200, st))
  /\ (method req = "POST" ->
      list_route cfg c req st
      = Ok (jsonify (message_data (label c ++ " added") (json_or_empty req))
              201,
            <[data_path c := JList [json_or_empty req]]> st))
  /\ (method req = "PUT" \/ method req = "DELETE" ->
      item_route cfg container_repr c id req st
      = Ok (jsonify (error "Not found") 404, st)).
Proof.
  intros Hauth Hst Hlist Hwrap.
  pose proof (extract_entries_other doc Hlist Hwrap) as Hext.
  repeat split.
  - intros Hget.
    rewrite (list_route_get_view cfg c req st doc [] None) by done.
    by destruct c.
  - intros Hpost.
    by rewrite (list_route_post cfg c req st doc [] None).
  - assert (Hrec : records []) by constructor.
    destruct (item_key_name_records c [] Hrec) as [key_name Hkey].
    unfold data_path in Hst. intros [Hput | Hdel].
    + by rewrite (item_route_put cfg container_repr c id req st doc []
                    None key_name).
    + by rewrite (item_route_delete cfg container_repr c id req st doc []
                    None key_name).
Qed.

(** ** Instances of the further properties *)

Lemma token_from_complete_form_witness :
  exists resp,
    get_token app_config Fixture.form_request = Ok resp
    /\ status resp = 200%Z.
Proof.
  destruct (token_from_complete_form app_config Fixture.form_request
              "testclient" "testsecret" "client_credentials"
              eq_refl eq_refl eq_refl
              ltac:(discriminate) ltac:(discriminate) ltac:(discriminate))
    as (resp & Hget & Hok & _).
  exists resp. split; [exact Hget|]. apply Hok. repeat split.
Defined.

Lemma token_from_json_body_witness :
  exists resp,
    get_token app_config (Fixture.json_request (JDict Fixture.credentials))
    = Ok resp
    /\ status resp = 200%Z.
Proof.
  destruct (token_from_json_body app_config
              (Fixture.json_request (JDict Fixture.credentials))
              Fixture.credentials (or_introl eq_refl) (or_introl eq_refl))
    as (resp & Hget & Hok & _).
  exists resp. split; [exact Hget|]. apply Hok. repeat split.
Defined.

Lemma token_json_not_object_witness :
  get_token app_config (Fixture.json_request (JList [JInt 1]))
  = Raise AttributeError.
Proof.
  apply (token_json_not_object app_config
           (Fixture.json_request (JList [JInt 1])) (JList [JInt 1])
           (or_introl eq_refl) eq_refl eq_refl eq_refl).
Defined.

Lemma issued_token_opens_gate_witness :
  issued_token (jsonify (token_grant app_config) 200)
  = Some "mysecrettoken123".
Proof.
  apply (issued_token_opens_gate app_config Fixture.form_request
           (jsonify (token_grant app_config) 200) eq_refl eq_refl).
Defined.

Lemma routes_write_only_their_file_witness :
  Fixture.files_with_worker9 !! "data/contractors.json"
  = Fixture.files !! "data/contractors.json".
Proof.
  assert (Hroute :
    list_route app_config Employees
      (Sample.request_with "POST" (Some (JDict Fixture.worker9)))
      Fixture.files
    = Ok (jsonify (message_data "Employee added" (JDict Fixture.worker9)) 201,
          Fixture.files_with_worker9)) by reflexivity.
  destruct (routes_write_only_their_file app_config Sample.container_repr
              Employees "9" _ _ _ _ (or_introl Hroute)) as [Hother _].
  apply Hother. discriminate.
Defined.

Lemma reads_and_refusals_do_not_write_witness :
  item_route app_config Sample.container_repr Employees "99"
    (Sample.request_with "DELETE" None) Fixture.files
  = Ok (jsonify (error "Not found") 404, Fixture.files)
  /\ Fixture.files = Fixture.files.
Proof.
  assert (Hroute :
    item_route app_config Sample.container_repr Employees "99"
      (Sample.request_with "DELETE" None) Fixture.files
    = Ok (jsonify (error "Not found") 404, Fixture.files)) by reflexivity.
  split; [exact Hroute|].
  destruct (reads_and_refusals_do_not_write app_config Sample.container_repr
              Employees "99" (Sample.request_with "DELETE" None)
              Fixture.files (jsonify (error "Not found") 404) Fixture.files)
    as [_ Hrefused].
  apply Hrefused; [by right | discriminate | discriminate].
Defined.

Lemma routes_save_codec_shape_witness :
  Fixture.files_with_worker9 = Fixture.files
  \/ exists saved,
       Fixture.files_with_worker9 = <[data_path Employees := saved]> Fixture.files
       /\ codec_shape saved
       /\ rewrap_extracted saved = saved.
Proof.
  assert (Hroute :
    list_route app_config Employees
      (Sample.request_with "POST" (Some (JDict Fixture.worker9)))
      Fixture.files
    = Ok (jsonify (message_data "Employee added" (JDict Fixture.worker9)) 201,
          Fixture.files_with_worker9)) by reflexivity.
  exact (routes_save_codec_shape app_config Sample.container_repr
           Employees "9" _ _ _ _ (or_introl Hroute)).
Defined.

Lemma missing_file_raises_witness :
  list_route app_config Employees (Sample.request_with "GET" None) ∅
  = Raise FileNotFoundError.
Proof.
  apply (missing_file_raises app_config Sample.container_repr Employees "1"
           (Sample.request_with "GET" None) ∅
           (sample_authorized _ _) (lookup_empty _)).
Defined.

Lemma post_then_delete_restores_witness :
  exists resp1 st1 resp2,
    list_route app_config Employees
      (Sample.request_with "POST" (Some (JDict Fixture.worker9)))
      Fixture.files = Ok (resp1, st1)
    /\ item_route app_config Sample.container_repr Employees "9"
         (Sample.request_with "DELETE" None) st1
       = Ok (resp2, Fixture.files).
Proof.
  assert (Hrec : records [Sample.worker1]) by repeat constructor.
  assert (Hshape : codec_shape Sample.employees_doc).
  { exists [Sample.worker1]. by right. }
  destruct (post_then_delete_restores app_config Sample.container_repr
              Employees "9"
              (Sample.request_with "POST" (Some (JDict Fixture.worker9)))
              (Sample.request_with "DELETE" None)
              Fixture.files Sample.employees_doc [Sample.worker1]
              (Some "Report_Entry") Fixture.worker9 "Worker_ID"
              (sample_authorized _ _) eq_refl eq_refl ltac:(discriminate)
              (sample_authorized _ _) eq_refl eq_refl eq_refl Hrec
              eq_refl eq_refl
              ltac:(by repeat constructor))
    as (resp1 & st1 & resp2 & st2 & Hpost & _ & Hdel & _ & _ & Hback).
  exists resp1, st1, resp2. split; [exact Hpost|].
  by rewrite <- (Hback Hshape).
Defined.

Lemma post_then_get_returns_record_witness :
  exists resp1 st1 new_item,
    list_route app_config Conversion
      (Sample.request_with "POST" (Some (JDict Fixture.worker9)))
      Fixture.files = Ok (resp1, st1)
    /\ list_route app_config Conversion (Sample.request_with "GET" None) st1
       = Ok (jsonify
               (rewrap [Sample.worker1; new_item] (Some "Report_Entry")) 200,
             st1).
Proof.
  destruct (post_then_get_returns_record app_config Conversion
              (Sample.request_with "POST" (Some (JDict Fixture.worker9)))
              (Sample.request_with "GET" None)
              Fixture.files Sample.employees_doc [Sample.worker1]
              (Some "Report_Entry")
              (sample_authorized _ _) eq_refl
              (sample_authorized _ _) eq_refl eq_refl eq_refl)
    as (resp1 & st1 & new_item & Hpost & _ & Hget & _).
  exists resp1, st1, new_item. split; [exact Hpost | by apply Hget].
Defined.

Lemma put_twice_is_put_once_witness :
  item_route app_config Sample.container_repr Employees "1"
    (Sample.request_with "PUT" (Some (JDict Fixture.inactive)))
    Fixture.files_inactive
  = Ok (jsonify (message_data "Employee updated" (JDict Fixture.inactive)) 200,
        Fixture.files_inactive).
Proof.
  assert (Hrec : records [Sample.worker1]) by repeat constructor.
  assert (Hdistinct : distinct_fields Fixture.inactive).
  { apply NoDup_singleton. }
  assert (Hnokey : forall k, k ∈ key_fields ->
                             dict_has k Fixture.inactive = false).
  { intros k Hk. unfold key_fields in Hk.
    repeat (apply elem_of_cons in Hk as [-> | Hk]; [reflexivity|]).
    by apply elem_of_nil in Hk. }
  apply (put_twice_is_put_once app_config Sample.container_repr Employees
           "1" (Sample.request_with "PUT" (Some (JDict Fixture.inactive)))
           Fixture.files Sample.employees_doc [Sample.worker1]
           (Some "Report_Entry") Fixture.inactive _ _
           (sample_authorized _ _) eq_refl (or_introl eq_refl) Hdistinct
           Hnokey eq_refl eq_refl Hrec).
  reflexivity.
Defined.

Lemma delete_twice_not_found_witness :
  item_route app_config Sample.container_repr Employees "1"
    (Sample.request_with "DELETE" None) Fixture.files_emptied
  = Ok (jsonify (error "Not found") 404, Fixture.files_emptied).
Proof.
  assert (Hrec : records [Sample.worker1]) by repeat constructor.
  apply (delete_twice_not_found app_config Sample.container_repr Employees
           "1" (Sample.request_with "DELETE" None)
           Fixture.files Sample.employees_doc [Sample.worker1]
           (Some "Report_Entry") "Worker_ID"
           (jsonify (message "Employee deleted") 200) _
           (sample_authorized _ _) eq_refl eq_refl eq_refl Hrec
           eq_refl eq_refl).
  reflexivity.
Defined.

Lemma normalizer_only_fills_witness :
  length [JDict [("Worker_ID", JStr "1"); ("Termination_Date", JStr "");
                 ("IsActive", JStr "true")]]
  = length [Sample.worker1].
Proof.
  apply (normalizer_only_fills app_config [Sample.worker1] _ eq_refl).
Defined.

Lemma non_record_entry_breaks_routes_witness :
  exists e,
    item_route app_config Sample.container_repr Employees "1"
      (Sample.request_with "DELETE" None)
      (Sample.files (JList [Sample.worker1; JList [JInt 1]]))
    = Raise e.
Proof.
  destruct (non_record_entry_breaks_routes app_config Sample.container_repr
              Employees "1" (Sample.request_with "DELETE" None)
              (Sample.files (JList [Sample.worker1; JList [JInt 1]]))
              (JList [Sample.worker1; JList [JInt 1]])
              [Sample.worker1; JList [JInt 1]] None
              (sample_authorized _ _) eq_refl eq_refl
              ltac:(by right; left))
    as (_ & _ & Hdelete).
  by apply Hdelete.
Defined.

Lemma put_body_that_is_no_object_witness :
  exists e,
    item_route app_config Sample.container_repr Employees "1"
      (Sample.request_with "PUT" (Some (JStr "inactive"))) Fixture.files
    = Raise e.
Proof.
  assert (Hrec : records [Sample.worker1]) by repeat constructor.
  destruct (put_body_that_is_no_object app_config Sample.container_repr
              Employees "1"
              (Sample.request_with "PUT" (Some (JStr "inactive")))
              Fixture.files Sample.employees_doc [Sample.worker1]
              (Some "Report_Entry") "Worker_ID" (JStr "inactive")
              (sample_authorized _ _) eq_refl eq_refl eq_refl eq_refl eq_refl
              Hrec eq_refl)
    as (Hraises & _).
  apply Hraises. by apply List.Exists_cons_hd.
Defined.

Lemma key_depends_on_fields_present_witness :
  item_key_name Contractors
    [JDict [("Worker_ID", JStr "2")]; JDict [("contractorID", JStr "1")]]
  = item_key_name Contractors
      [JDict [("contractorID", JStr "1")]; JDict [("Worker_ID", JStr "2")]].
Proof.
  destruct (key_depends_on_fields_present Contractors
              [JDict [("contractorID", JStr "1")];
               JDict [("Worker_ID", JStr "2")]]
              [JDict [("Worker_ID", JStr "2")];
               JDict [("contractorID", JStr "1")]])
    as [Hperm _].
  { repeat constructor. }
  apply Hperm. apply perm_swap.
Defined.

Lemma unrecognised_document_reads_empty_witness :
  list_route app_config Employees (Sample.request_with "POST" None)
    (Sample.files (JDict [("workers", JList [Sample.worker1])]))
  = Ok (jsonify (message_data "Employee added" (JDict [])) 201,
        <["data/employees.json" := JList [JDict []]]>
          (Sample.files (JDict [("workers", JList [Sample.worker1])]))).
Proof.
  destruct (unrecognised_document_reads_empty app_config
              Sample.container_repr Employees "1"
              (Sample.request_with "POST" None)
              (Sample.files (JDict [("workers", JList [Sample.worker1])]))
              (JDict [("workers", JList [Sample.worker1])])
              (sample_authorized _ _) eq_refl eq_refl eq_refl)
    as (_ & Hpost & _).
  by apply Hpost.
Defined.
